(** * DrowsinessDetection: the webcam stabilizer loop, model validation and
      the Int8 "quantizer", embedded from the Python sources.

    - [Stabilizer] embeds the body of [test_webcam] of [test_inference.py]
      (lines 39-99) and of [test_tflite_inference.py] (lines 125-185); the two
      loops are the same program up to drawing on the displayed frame.
    - [Validation] embeds [validate_model_path] of [y2m/utils.py] and the
      control flow of [main] of [y2m/cli.py].
    - [Optimizer] embeds [ModelOptimizer.quantize_int8] and
      [ModelOptimizer._quantize_from_tflite] of [y2m/optimizer.py].

    Python [int] is [Z]; a confidence (a Python [float] that the data model
    takes as a real number in [0, 1]) is an exact rational [Q]; a class name
    is a [string]; [None] is [None]. *)

From Stdlib Require Import ZArith QArith Lqa String Ascii Sorted.
From stdpp Require Import base tactics option list list_numbers strings pretty gmap.

Local Open Scope Z_scope.

(* ===================================================================== *)
(** ** The webcam loop *)
(* ===================================================================== *)

Module Stabilizer.

(** [current_detection = (class_name, conf)]; the bounding box that the
    TFLite detector returns with each detection is not kept in it. *)
Definition detection : Type := string * Q.

Definition class_name (d : detection) : string := d.1.
Definition conf (d : detection) : Q := d.2.

(** Python's [a > b] on confidences. *)
Definition Qgtb (a b : Q) : bool := negb (Qle_bool a b).

(** One iteration of the scan of a frame's raw detections:
    [if current_detection is None or conf > current_detection[1]:
         current_detection = (class_name, conf)]. *)
Definition scan_step (current_detection : option detection) (d : detection)
  : option detection :=
  match current_detection with
  | None => Some d
  | Some c => if Qgtb (conf d) (conf c) then Some d else Some c
  end.

(** [current_detection = None; for ... : scan_step]. *)
Definition best_detection (raw : list detection) : option detection :=
  fold_left scan_step raw None.

(** [deque(maxlen=5)] *)
Definition maxlen : nat := 5.

(** [collections.deque.append] on a bounded deque: the item is added on the
    right, and when that makes the deque longer than [maxlen] one item is
    discarded from the left. *)
Definition deque_append (dq : list detection) (d : detection) : list detection :=
  let dq' := dq ++ [d] in
  if (maxlen <? length dq')%nat then drop 1 dq' else dq'.

(** [if current_detection: detection_history.append(current_detection)];
    a pair is always truthy, so only [None] skips the append. *)
Definition add_to_history (detection_history : list detection)
  (current_detection : option detection) : list detection :=
  match current_detection with
  | Some d => deque_append detection_history d
  | None => detection_history
  end.

Inductive stab_state : Type := DROWSY | ALERT | UNCERTAIN.

#[global] Instance stab_state_eq_dec : EqDecision stab_state.
Proof. solve_decision. Defined.

(** Python's [sum] of integers and of confidences: left to right from 0. *)
Definition py_sum_Z (l : list Z) : Z := fold_left Z.add l 0.
Definition py_sum_Q (l : list Q) : Q := fold_left Qplus l 0%Q.

(** [sum(1 for d in detection_history if d[0] == name)] *)
Definition count_label (name : string) (detection_history : list detection) : Z :=
  py_sum_Z (map (fun _ => 1) (filter (fun d => class_name d = name) detection_history)).

Definition drowsy_count := count_label "drowsy".
Definition notdrowsy_count := count_label "notdrowsy".

(** [sum(d[1] for d in detection_history) / len(detection_history)], in exact
    arithmetic: the rounding of the float sum and division is not
    represented. *)
Definition avg_conf (detection_history : list detection) : Q :=
  (py_sum_Q (map conf detection_history)
   / inject_Z (Z.of_nat (length detection_history)))%Q.

(** The [if / elif / else] on the two counts. *)
Definition current_state (detection_history : list detection) : stab_state :=
  if notdrowsy_count detection_history <? drowsy_count detection_history then DROWSY
  else if drowsy_count detection_history <? notdrowsy_count detection_history then ALERT
  else UNCERTAIN.

(** What a [print] of the loop shows. *)
Inductive report : Type :=
| StateReport (frame : Z) (state : stab_state) (avg : Q) (drowsy notdrowsy : Z)
| NoDetections (frame : Z).

Record loop_state : Type := mkLoop {
  inference_count : Z;
  detection_history : list detection;
  last_reported_state : option stab_state
}.

(** The variables before the [while]. *)
Definition init : loop_state :=
  {| inference_count := 0; detection_history := []; last_reported_state := None |}.

(** One pass through the body of [while True], from [inference_count += 1]
    to the end of the [if / elif] that prints; [raw] is what the model found
    in the frame. *)
Definition process_frame (s : loop_state) (raw : list detection)
  : loop_state * option report :=
  let n := inference_count s + 1 in
  let current_detection := best_detection raw in
  let h := add_to_history (detection_history s) current_detection in
  if bool_decide (1 <= length h)%nat && (n mod 5 =? 0) then
    let st := current_state h in
    if bool_decide (Some st <> last_reported_state s) || (n mod 30 =? 0) then
      ({| inference_count := n; detection_history := h; last_reported_state := Some st |},
       Some (StateReport n st (avg_conf h) (drowsy_count h) (notdrowsy_count h)))
    else
      ({| inference_count := n; detection_history := h;
          last_reported_state := last_reported_state s |}, None)
  else if bool_decide (length h = 0%nat) && (n mod 30 =? 0) then
    ({| inference_count := n; detection_history := h;
        last_reported_state := last_reported_state s |}, Some (NoDetections n))
  else
    ({| inference_count := n; detection_history := h;
        last_reported_state := last_reported_state s |}, None).

(** The loop over the frames the camera delivers before it stops: the final
    variables and everything printed, in order. *)
Fixpoint webcam_loop (s : loop_state) (frames : list (list detection))
  : loop_state * list report :=
  match frames with
  | [] => (s, [])
  | raw :: rest =>
      let '(s1, r) := process_frame s raw in
      let '(s2, rs) := webcam_loop s1 rest in
      (s2, option_list r ++ rs)
  end.

Definition test_webcam (frames : list (list detection)) : loop_state * list report :=
  webcam_loop init frames.

Definition report_frame (r : report) : Z :=
  match r with StateReport n _ _ _ _ => n | NoDetections n => n end.

Definition report_state (r : report) : option stab_state :=
  match r with StateReport _ st _ _ _ => Some st | NoDetections _ => None end.

End Stabilizer.

(* ===================================================================== *)
(** ** Validation of the model path and the exit code of the CLI *)
(* ===================================================================== *)

Module Validation.

Definition ERR_FILE_NOT_FOUND : string := "ERR_FILE_NOT_FOUND".
Definition ERR_INVALID_EXTENSION : string := "ERR_INVALID_EXTENSION".
Definition ERR_FILE_EMPTY : string := "ERR_FILE_EMPTY".
Definition ERR_READ_PERMISSION : string := "ERR_READ_PERMISSION".


(** A call either returns a value or lets an exception escape. *)
Inductive outcome (A : Type) : Type :=
| Return (a : A)
| Raise.

Arguments Return {A} a.
Arguments Raise {A}.

(** The error numbers of a failed [os.stat] that matter here; [EOTHER] is
    any other one. *)
Inductive errno : Type :=
| ENOENT | ENOTDIR | EBADF | ELOOP | EACCES | ENAMETOOLONG | EOTHER.

(** What [os.stat] does for the path: it returns a result, of which only
    [st_size] is read, or raises [OSError] with an error number, or raises
    [ValueError] (a path that cannot be encoded). *)
Inductive stat_outcome : Type :=
| StatResult (st_size : Z)
| StatOSError (e : errno)
| StatValueError.

(** What the file system answers about [Path(model_path)] during one call:
    [os.stat], [path.suffix] and [os.access(path, os.R_OK)]. *)
Record path_facts : Type := mkFacts {
  stat : stat_outcome;
  path_suffix : string;
  access_R_OK : bool
}.

(** [pathlib._ignore_error]: [errno in (ENOENT, ENOTDIR, EBADF, ELOOP)]. *)
Definition ignore_error (e : errno) : bool :=
  match e with
  | ENOENT | ENOTDIR | EBADF | ELOOP => true
  | EACCES | ENAMETOOLONG | EOTHER => false
  end.

(** [Path.exists()]: [True] when [stat] returns, [False] when it raises an
    [OSError] that [_ignore_error] accepts or a [ValueError]; any other
    [OSError] is raised again. *)
Definition Path_exists (path : path_facts) : outcome bool :=
  match stat path with
  | StatResult _ => Return true
  | StatOSError e => if ignore_error e then Return false else Raise
  | StatValueError => Return false
  end.

(** [path.stat().st_size] *)
Definition Path_st_size (path : path_facts) : outcome Z :=
  match stat path with
  | StatResult st_size => Return st_size
  | StatOSError _ | StatValueError => Raise
  end.

(** [str.lower] on the ASCII letters (no other character lowers to one of
    ['.'], ['p'], ['t']). *)
Definition ascii_lower (c : ascii) : ascii :=
  let n := nat_of_ascii c in
  if ((65 <=? n) && (n <=? 90))%nat then ascii_of_nat (n + 32) else c.

Fixpoint lower (s : string) : string :=
  match s with
  | EmptyString => EmptyString
  | String c rest => String (ascii_lower c) (lower rest)
  end.

(** [validate_model_path], y2m/utils.py lines 29-62: four early returns in
    this order, then [(True, None)]. Nothing in it catches an exception, so
    what [path.exists()] or [path.stat()] raises escapes. *)
Definition validate_model_path (path : path_facts) : outcome (bool * option string) :=
  match Path_exists path with
  | Raise => Raise
  | Return false => Return (false, Some ERR_FILE_NOT_FOUND)
  | Return true =>
      if negb (String.eqb (lower (path_suffix path)) ".pt")
      then Return (false, Some ERR_INVALID_EXTENSION)
      else
        match Path_st_size path with
        | Raise => Raise
        | Return st_size =>
            if st_size =? 0 then Return (false, Some ERR_FILE_EMPTY)
            else if negb (access_R_OK path) then Return (false, Some ERR_READ_PERMISSION)
            else Return (true, None)
        end
  end.




End Validation.

(* ===================================================================== *)
(** ** The Int8 "quantizer" *)
(* ===================================================================== *)

Module Optimizer.

(** Files by path, each with its bytes. *)
Abbreviation file_system := (gmap string (list Byte.byte)).

(** [ModelOptimizer.__init__] *)
Record ModelOptimizer : Type := mkOptimizer {
  tflite_path : string;
  output_dir : string
}.

(** What TensorFlow, [pathlib] and the operating system do during one call;
    [false] / [None] stands for an exception raised by the call. *)
Record environment : Type := mkEnv {
  (** [import tensorflow as tf] *)
  import_tensorflow : bool;
  (** [self._find_saved_model_dir()]: raised, or the directory found (or
      [None] returned) *)
  find_saved_model_dir : option (option string);
  (** [tf.lite.TFLiteConverter.from_saved_model(str(dir))] returns *)
  from_saved_model : option string -> bool;
  (** [tf.lite.Interpreter(model_content=...)], [allocate_tensors()] and
      [get_input_details()[0]['shape']] all work *)
  interpreter_ok : list Byte.byte -> bool;
  (** [self.output_dir / f"{stem.replace('_float32', '')}_int8.tflite"] *)
  int8_output_path : ModelOptimizer -> string;
  (** the destination of [shutil.copy2] can be written *)
  can_write : string -> bool
}.

(** A [try] body is an [option]: [None] when it raised. *)
Definition raise_unless (b : bool) : option unit := if b then Some tt else None.

(** [shutil.copy2(src, dst)]: raises when [src] is missing, when both name
    the same file, or when [dst] cannot be written; otherwise [dst] holds the
    bytes of [src]. This describes one call on a flat map of files: the mode
    bits that [copy2] also copies, directories and links are not
    represented. *)
Definition copy2 (env : environment) (fs : file_system) (src dst : string)
  : option file_system :=
  content ← fs !! src;
  _ ← raise_unless (negb (String.eqb src dst));
  _ ← raise_unless (can_write env dst);
  Some (<[dst := content]> fs).

(** The [try] body of [_quantize_from_tflite], lines 108-148. *)
Definition quantize_from_tflite_body (self : ModelOptimizer) (env : environment)
  (fs : file_system) : option (string * file_system) :=
  _ ← raise_unless (import_tensorflow env);
  model_content ← fs !! tflite_path self;
  let output_path := int8_output_path env self in
  _ ← raise_unless (interpreter_ok env model_content);
  fs' ← copy2 env fs (tflite_path self) output_path;
  Some (output_path, fs').

(** [_quantize_from_tflite]: [except Exception: return None]. *)
Definition _quantize_from_tflite (self : ModelOptimizer) (env : environment)
  (fs : file_system) : option string * file_system :=
  match quantize_from_tflite_body self env fs with
  | Some (output_path, fs') => (Some output_path, fs')
  | None => (None, fs)
  end.

(** The [try] body of [quantize_int8], lines 75-88: it builds a converter
    and ends; there is no [return] in it. *)
Definition quantize_int8_body (self : ModelOptimizer) (env : environment)
  : option unit :=
  _ ← raise_unless (import_tensorflow env);
  dir ← find_saved_model_dir env;
  _ ← raise_unless (from_saved_model env dir);
  Some tt.

(** [quantize_int8]: when the body ends normally the function reaches its
    end and returns [None]; [except Exception] returns what the fallback
    returns. *)
Definition quantize_int8 (self : ModelOptimizer) (env : environment)
  (fs : file_system) : option string * file_system :=
  match quantize_int8_body self env with
  | Some _ => (None, fs)
  | None => _quantize_from_tflite self env fs
  end.

End Optimizer.

(* ===================================================================== *)
(** ** Vocabulary of the properties *)
(* ===================================================================== *)

Module Props.
Import Stabilizer.

(** The last [n] items of a list, in order. *)
Definition lastn {A} (n : nat) (l : list A) : list A := drop (length l - n) l.

(** [d] sits at position [i] of [raw], every earlier item has a strictly
    smaller confidence and no later item has a greater one. *)
Definition first_max (raw : list detection) (i : nat) (d : detection) : Prop :=
  raw !! i = Some d /\
  (forall j e, (j < i)%nat -> raw !! j = Some e -> (conf e < conf d)%Q) /\
  (forall j e, (i < j)%nat -> raw !! j = Some e -> (conf e <= conf d)%Q).

(** The detections a sequence of frames contributes, in arrival order. *)
Definition detections_of (frames : list (list detection)) : list detection :=
  omap best_detection frames.

(** The arithmetic sum of a list of rationals. *)
Definition Qsum (l : list Q) : Q := foldr Qplus 0%Q l.

(** The two conditions under which a frame prints. *)
Definition state_report_due (n : Z) (h : list detection)
  (last : option stab_state) : Prop :=
  h <> [] /\ n mod 5 = 0 /\ (Some (current_state h) <> last \/ n mod 30 = 0).

Definition no_detection_report_due (n : Z) (h : list detection) : Prop :=
  h = [] /\ n mod 30 = 0.

Definition is_no_detections (r : report) : Prop :=
  match r with NoDetections _ => True | StateReport _ _ _ _ _ => False end.

(** A frame in which the model found one detection. *)
Definition single (name : string) (c : Q) : list detection := [(name, c)].

(** Frames 1-15 (drowsy, 0.9), frames 16-30 (notdrowsy, 0.9). *)
Definition stream30 : list (list detection) :=
  replicate 15 (single "drowsy" 0.9%Q) ++ replicate 15 (single "notdrowsy" 0.9%Q).

(** Frames 1-10 (drowsy, 0.9), frames 11-15 (notdrowsy, 0.9): the majority
    of the window flips with frame 13. *)
Definition stream15 : list (list detection) :=
  replicate 10 (single "drowsy" 0.9%Q) ++ replicate 5 (single "notdrowsy" 0.9%Q).

(** The frame number and the state shown by a report. *)
Definition report_summary (r : report) : Z * option stab_state :=
  (report_frame r, report_state r).

Definition reports_of (frames : list (list detection)) : list (Z * option stab_state) :=
  map report_summary (test_webcam frames).2.

(** The state the window holds after some frames, reported or not. *)
Definition state_after (frames : list (list detection)) : stab_state :=
  current_state (detection_history (test_webcam frames).1).

(** The average a state report shows. *)
Definition report_avg_is (q : Q) (r : report) : Prop :=
  match r with StateReport _ _ avg _ _ => (avg == q)%Q | NoDetections _ => False end.

(** A report shows what is computed from the window [h]. *)
Definition report_reflects (h : list detection) (r : report) : Prop :=
  match r with
  | StateReport _ st avg d a =>
      st = current_state h /\ avg = avg_conf h /\
      d = drowsy_count h /\ a = notdrowsy_count h
  | NoDetections _ => h = []
  end.

End Props.

(* ===================================================================== *)
(** ** The TFLite detector *)
(* ===================================================================== *)

Module TFLite.
Import Stabilizer.

(** [self.class_names] *)
Definition class_names : list string := ["drowsy"; "notdrowsy"].

(** The output tensor by the length of its shape; the values are taken as
    rationals, as the confidences are. *)
Inductive ndarray : Type :=
| Array3 (data : list (list (list Q)))
| Array2 (data : list (list Q))
| ArrayOther.

(** [np.argmax] of a 1-D array: the index of the first maximum, scanning
    with the best value so far. *)
Fixpoint argmax_from (best_i : nat) (best : Q) (i : nat) (l : list Q) : nat :=
  match l with
  | [] => best_i
  | x :: rest =>
      if Qgtb x best then argmax_from i x (S i) rest
      else argmax_from best_i best (S i) rest
  end.

(** [np.argmax] raises on an empty array. *)
Definition argmax (l : list Q) : option nat :=
  match l with
  | [] => None
  | x :: rest => Some (argmax_from 0 x 1 rest)
  end.

(** [self.class_names[class_id] if class_id < len(self.class_names)
     else f"class_{class_id}"] *)
Definition class_name_of (class_id : nat) : string :=
  if (class_id <? length class_names)%nat
  then default ""%string (class_names !! class_id)
  else ("class_" +:+ pretty class_id)%string.

(** A detection as [detect] returns it: [(class_name, confidence, bbox)]. *)
Definition tflite_detection : Type := string * Q * option (Q * Q * Q * Q).

(** [x, y, w, h = pred[:4]] *)
Definition bbox_of (pred : list Q) : option (Q * Q * Q * Q) :=
  match pred with
  | x :: y :: w :: h :: _ => Some (x, y, w, h)
  | _ => None
  end.

(** The body of [for pred in predictions], lines 88-98: what the row adds to
    [detections]. A row with fewer than 6 entries is skipped. *)
Definition detect_row (pred : list Q) : list tflite_detection :=
  if (6 <=? length pred)%nat then
    let class_scores := drop 4 pred in
    match argmax class_scores with
    | Some class_id =>
        match class_scores !! class_id with
        | Some confidence =>
            if Qgtb confidence 0.25
            then [(class_name_of class_id, confidence, bbox_of pred)]
            else []
        | None => []
        end
    | None => []
    end
  else [].

(** The parsing part of [TFLiteDetector.detect], lines 78-109, on the output
    tensor; [None] stands for the exception of [output_data[0]] on an empty
    first axis or of [np.argmax] on an empty row. *)
Definition detect (output_data : ndarray) : option (list tflite_detection) :=
  match output_data with
  | Array3 data =>
      predictions ← data !! 0%nat;
      Some (concat (map detect_row predictions))
  | Array2 data =>
      scores ← data !! 0%nat;
      class_id ← argmax scores;
      confidence ← scores !! class_id;
      Some (if Qgtb confidence 0.25
            then [(class_name_of class_id, confidence, None)]
            else [])
  | ArrayOther => Some []
  end.

(** What the scan of [test_webcam] keeps of a detection:
    [class_name, confidence, bbox = det]. *)
Definition unpack (det : tflite_detection) : detection := (det.1.1, det.1.2).

(** The frames of the TFLite loop, one per output tensor, as long as
    [detect] raises on none of them. *)
Definition tflite_frames (outputs : list ndarray) : option (list (list detection)) :=
  mapM (fun output_data => map unpack <$> detect output_data) outputs.

End TFLite.

(* ===================================================================== *)
(** ** Removing intermediate files *)
(* ===================================================================== *)

Module Cleanup.

(** What the file system does for one directory: which names match the
    pattern [f"*{ext}"] of [directory.glob], and which files [unlink]
    removes without raising. *)
Record dir_env : Type := mkDirEnv {
  glob_match : string -> string -> bool;
  can_unlink : string -> bool
}.

(** The body of [for file in directory.glob(...)], lines 147-152, on the
    names left in the directory and [deleted_count]. *)
Definition unlink_step (env : dir_env) (acc : gset string * Z) (file : string)
  : gset string * Z :=
  if can_unlink env file then (acc.1 ∖ {[file]}, acc.2 + 1) else acc.

(** [directory.glob(f"*{ext}")]: the names of the directory that match,
    listed before the first of them is removed. *)
Definition glob (env : dir_env) (directory : gset string) (ext : string) : list string :=
  elements (filter (fun name => glob_match env ext name = true) directory).

(** [cleanup_intermediate_files], y2m/utils.py lines 133-154: the names left
    in the directory and the number returned. *)
Definition cleanup_intermediate_files (env : dir_env) (directory : gset string)
  (extensions : list string) : gset string * Z :=
  fold_left
    (fun acc ext => fold_left (unlink_step env) (glob env acc.1 ext) acc)
    extensions (directory, 0).

(** The default of the parameter [extensions]. *)
Definition default_extensions : list string := [".onnx"%string].

End Cleanup.

(* ===================================================================== *)
(** ** Vocabulary of the further properties *)
(* ===================================================================== *)

Module LoopProps.
Import Stabilizer Props.

(** The state of the last state report among [rs], or [last] when there is
    none. *)
Definition last_printed (last : option stab_state) (rs : list report)
  : option stab_state :=
  fold_left (fun acc r => match report_state r with Some st => Some st | None => acc end)
    rs last.

(** Every state report of [rs] shows a state other than the one printed
    before it (starting from [last]) or sits at a multiple of 30. *)
Fixpoint report_chain (last : option stab_state) (rs : list report) : Prop :=
  match rs with
  | [] => True
  | StateReport n st _ _ _ :: rest =>
      (Some st <> last \/ n mod 30 = 0) /\ report_chain (Some st) rest
  | NoDetections _ :: rest => report_chain last rest
  end.

(** The state a window holds when all its entries carry one label. *)
Definition state_of_label (name : string) : stab_state :=
  if decide (name = "drowsy") then DROWSY
  else if decide (name = "notdrowsy") then ALERT
  else UNCERTAIN.

(** The frame numbers 1..n at which a stream of constant state prints. *)
Definition constant_stream_frames (n : nat) : list Z :=
  filter (fun k => k = 5 \/ k mod 30 = 0) (seqZ 1 (Z.of_nat n)).

(** What a state report shows is consistent: the two counts are not
    negative, together they do not exceed the window size, and the state is
    the one the counts give. *)
Definition report_consistent (r : report) : Prop :=
  match r with
  | StateReport n st avg d a =>
      0 <= d /\ 0 <= a /\ d + a <= 5 /\
      (st = DROWSY <-> a < d) /\ (st = ALERT <-> d < a) /\ (st = UNCERTAIN <-> d = a)
  | NoDetections _ => True
  end.

(** The average of a state report is above [lo]. *)
Definition report_avg_above (lo : Q) (r : report) : Prop :=
  match r with
  | StateReport _ _ avg _ _ => (lo < avg)%Q
  | NoDetections _ => True
  end.

(** [c] sits at index [i] of [scores], above every earlier score and not
    below any later one: what [np.argmax] picks. *)
Definition first_max_score (scores : list Q) (i : nat) (c : Q) : Prop :=
  scores !! i = Some c /\
  (forall j x, (j < i)%nat -> scores !! j = Some x -> (x < c)%Q) /\
  (forall j x, (i < j)%nat -> scores !! j = Some x -> (x <= c)%Q).

(** The name [detect] is to give to a class index: 'drowsy' for 0,
    'notdrowsy' for 1 and 'class_k', with k in decimal, for any k >= 2. *)
Definition name_for_class (class_id : nat) (name : string) : Prop :=
  (class_id = 0%nat /\ name = "drowsy"%string) \/
  (class_id = 1%nat /\ name = "notdrowsy"%string) \/
  ((2 <= class_id)%nat /\ name = ("class_" +:+ pretty class_id)%string).

(** The detection [det] is what the row [pred] stands for: the row has at
    least 6 entries, the confidence is the first maximum of its class scores
    and exceeds 0.25, the name is the one of the index of that maximum and the
    box is the row's first four entries. *)
Definition detection_from_row (pred : list Q) (det : TFLite.tflite_detection) : Prop :=
  (6 <= length pred)%nat /\
  exists (class_id : nat) (x y w h : Q),
    first_max_score (drop 4 pred) class_id det.1.2 /\
    (0.25 < det.1.2)%Q /\
    name_for_class class_id det.1.1 /\
    take 4 pred = [x; y; w; h] /\
    det.2 = Some (x, y, w, h).

End LoopProps.

(* ===================================================================== *)
(** ** Lemmas on the loop *)
(* ===================================================================== *)

Section StabilizerLemmas.
Import Stabilizer Props.

Lemma Qgtb_true (a b : Q) : Qgtb a b = true <-> (b < a)%Q.
Proof.
  unfold Qgtb. rewrite negb_true_iff, <- not_true_iff_false, Qle_bool_iff.
  split; [apply Qnot_le_lt | apply Qlt_not_le].
Qed.

Lemma Qgtb_false (a b : Q) : Qgtb a b = false <-> (a <= b)%Q.
Proof. unfold Qgtb. rewrite negb_false_iff. apply Qle_bool_iff. Qed.

Lemma process_frame_count s raw :
  inference_count (process_frame s raw).1 = inference_count s + 1.
Proof. unfold process_frame. repeat case_match; reflexivity. Qed.

Lemma process_frame_history s raw :
  detection_history (process_frame s raw).1
  = add_to_history (detection_history s) (best_detection raw).
Proof. unfold process_frame. repeat case_match; reflexivity. Qed.

Lemma webcam_loop_cons s raw rest :
  webcam_loop s (raw :: rest)
  = ((webcam_loop (process_frame s raw).1 rest).1,
     option_list (process_frame s raw).2 ++ (webcam_loop (process_frame s raw).1 rest).2).
Proof.
  simpl. destruct (process_frame s raw) as [s1 r]. simpl.
  destruct (webcam_loop s1 rest) as [s2 rs]. reflexivity.
Qed.

Lemma webcam_loop_app s fs gs :
  webcam_loop s (fs ++ gs)
  = ((webcam_loop (webcam_loop s fs).1 gs).1,
     (webcam_loop s fs).2 ++ (webcam_loop (webcam_loop s fs).1 gs).2).
Proof.
  revert s. induction fs as [|raw fs IH]; intros s.
  - simpl. destruct (webcam_loop s gs); reflexivity.
  - rewrite <- app_comm_cons, !webcam_loop_cons, IH. simpl.
    rewrite app_assoc. reflexivity.
Qed.

Lemma webcam_loop_count s frames :
  inference_count (webcam_loop s frames).1
  = inference_count s + Z.of_nat (length frames).
Proof.
  revert s. induction frames as [|raw rest IH]; intros s.
  - simpl. lia.
  - rewrite webcam_loop_cons. simpl. rewrite IH, process_frame_count. lia.
Qed.

End StabilizerLemmas.

(* ===================================================================== *)
(** ** The best-detection scan *)
(* ===================================================================== *)

Section Reducer.
Import Stabilizer Props.

Lemma first_max_head (d : detection) (rest : list detection) :
  (forall j e, rest !! j = Some e -> (conf e <= conf d)%Q) ->
  first_max (d :: rest) 0 d.
Proof.
  intros Hle. split; [reflexivity|]. split.
  - intros j e Hj. lia.
  - intros [|j] e Hj He; [lia|]. simpl in He. eauto.
Qed.

Lemma first_max_tail (d r : detection) (rest : list detection) (i : nat) :
  first_max rest i r -> (conf d < conf r)%Q -> first_max (d :: rest) (S i) r.
Proof.
  intros (Hi & Hbefore & Hafter) Hlt. split; [exact Hi|]. split.
  - intros [|j] e Hj He; simpl in He.
    + injection He as <-. exact Hlt.
    + apply (Hbefore j); [lia | exact He].
  - intros [|j] e Hj He; [lia|]. simpl in He.
    apply (Hafter j); [lia | exact He].
Qed.

(** The scan resumed with [c] retained: it ends with [c] when nothing later
    beats it, and otherwise with the first maximum of the rest, which beats
    [c]. *)
Lemma scan_from_retained (raw : list detection) : forall c : detection,
  exists r, fold_left scan_step raw (Some c) = Some r /\
    ((r = c /\ forall j e, raw !! j = Some e -> (conf e <= conf c)%Q) \/
     (exists i, first_max raw i r /\ (conf c < conf r)%Q)).
Proof.
  induction raw as [|d rest IH]; intros c.
  - exists c. split; [reflexivity|]. left. split; [reflexivity|].
    intros j e He. rewrite lookup_nil in He. discriminate.
  - simpl. destruct (Qgtb (conf d) (conf c)) eqn:Hcmp.
    + apply Qgtb_true in Hcmp.
      destruct (IH d) as (r & Hr & [[-> Hall] | (i & Hfm & Hlt)]).
      * exists d. split; [exact Hr|]. right. exists 0%nat.
        split; [apply first_max_head; exact Hall | exact Hcmp].
      * exists r. split; [exact Hr|]. right. exists (S i).
        split; [apply first_max_tail; assumption | lra].
    + apply Qgtb_false in Hcmp.
      destruct (IH c) as (r & Hr & [[-> Hall] | (i & Hfm & Hlt)]).
      * exists c. split; [exact Hr|]. left. split; [reflexivity|].
        intros [|j] e He; simpl in He; [injection He as <-; exact Hcmp | eauto].
      * exists r. split; [exact Hr|]. right. exists (S i).
        split; [apply first_max_tail; [assumption | lra] | exact Hlt].
Qed.

Lemma best_detection_first_max (raw : list detection) :
  raw <> [] -> exists i d, best_detection raw = Some d /\ first_max raw i d.
Proof.
  destruct raw as [|d rest]; [congruence|]. intros _.
  unfold best_detection. simpl.
  destruct (scan_from_retained rest d) as (r & Hr & [[-> Hall] | (i & Hfm & Hlt)]).
  - exists 0%nat, d. split; [exact Hr | apply first_max_head; exact Hall].
  - exists (S i), r. split; [exact Hr | apply first_max_tail; assumption].
Qed.

Lemma best_detection_None (raw : list detection) :
  best_detection raw = None <-> raw = [].
Proof.
  split; [|intros ->; reflexivity].
  destruct raw as [|d rest]; [reflexivity|]. intros H.
  destruct (best_detection_first_max (d :: rest)) as (i & r & Hr & _); congruence.
Qed.

(** The position is determined by the two bounds: there is one first
    maximum. *)
Lemma first_max_unique (raw : list detection) (i j : nat) (d e : detection) :
  first_max raw i d -> first_max raw j e -> i = j /\ d = e.
Proof.
  intros (Hi & Hbi & Hai) (Hj & Hbj & Haj).
  destruct (Nat.lt_trichotomy i j) as [Hlt | [-> | Hgt]].
  - pose proof (Hbj i d Hlt Hi). pose proof (Hai j e Hlt Hj). lra.
  - split; congruence.
  - pose proof (Hbi j e Hgt Hj). pose proof (Haj i d Hgt Hi). lra.
Qed.

(** C5. For a frame's finite list of raw detections the scan returns [None]
    when the list is empty; otherwise it returns the detection at the one
    position whose confidence is strictly greater than every earlier one and
    not exceeded by any later one; and a detection whose confidence equals the
    retained one does not replace it. *)
Theorem C5_best_detection_first_maximum :
  best_detection [] = None /\
  (forall raw : list detection, raw <> [] ->
     exists i d, best_detection raw = Some d /\ first_max raw i d /\
       forall j e, first_max raw j e -> j = i /\ e = d) /\
  (forall c d : detection, (conf d == conf c)%Q -> scan_step (Some c) d = Some c).
Proof.
  split; [reflexivity|]. split.
  - intros raw Hne. destruct (best_detection_first_max raw Hne) as (i & d & Hd & Hfm).
    exists i, d. split; [exact Hd|]. split; [exact Hfm|].
    intros j e He. destruct (first_max_unique raw i j d e Hfm He). split; congruence.
  - intros c d Heq. simpl.
    replace (Qgtb (conf d) (conf c)) with false; [reflexivity|].
    symmetry. apply Qgtb_false. rewrite Heq. apply Qle_refl.
Qed.

(** The scan of three detections, the last two tied at the top, has one
    first maximum and returns it. *)
Lemma C5_witness :
  let raw := [("notdrowsy", 0.4); ("drowsy", 0.8); ("notdrowsy", 0.8)]%Q in
  exists i d, best_detection raw = Some d /\ first_max raw i d /\
    forall j e, first_max raw j e -> j = i /\ e = d.
Proof.
  apply (proj1 (proj2 C5_best_detection_first_maximum)). discriminate.
Defined.

End Reducer.

(* ===================================================================== *)
(** ** The history window *)
(* ===================================================================== *)

Section Window.
Import Stabilizer Props.

Lemma lastn_length {A} (n : nat) (l : list A) :
  length (lastn n l) = (length l `min` n)%nat.
Proof. unfold lastn. rewrite length_drop. lia. Qed.

Lemma lastn_all {A} (n : nat) (l : list A) :
  (length l <= n)%nat -> lastn n l = l.
Proof. intros H. unfold lastn. replace (length l - n)%nat with 0%nat by lia. reflexivity. Qed.

Lemma lastn_app_lastn {A} (n : nat) (l k : list A) :
  lastn n (lastn n l ++ k) = lastn n (l ++ k).
Proof.
  unfold lastn. rewrite <- (drop_app_le l k (length l - n)) by lia.
  rewrite drop_drop. f_equal. rewrite length_drop, !length_app. lia.
Qed.

Lemma lastn_app_ge {A} (n : nat) (l k : list A) :
  (n <= length k)%nat -> lastn n (l ++ k) = lastn n k.
Proof.
  intros H. unfold lastn. rewrite length_app.
  replace (length l + length k - n)%nat with (length l + (length k - n))%nat by lia.
  apply drop_app_add.
Qed.

Lemma deque_append_lastn (dq : list detection) (d : detection) :
  (length dq <= maxlen)%nat -> deque_append dq d = lastn maxlen (dq ++ [d]).
Proof.
  intros H. unfold deque_append, lastn, maxlen in *. rewrite length_app. simpl.
  destruct (Nat.ltb_spec 5 (length dq + 1)) as [Hfull | Hroom].
  - replace (length dq + 1 - 5)%nat with 1%nat by lia. reflexivity.
  - replace (length dq + 1 - 5)%nat with 0%nat by lia. reflexivity.
Qed.

Lemma add_to_history_lastn (h : list detection) (raw : list detection) :
  (length h <= maxlen)%nat ->
  add_to_history h (best_detection raw)
  = lastn maxlen (h ++ detections_of [raw]).
Proof.
  intros H. unfold detections_of. simpl. destruct (best_detection raw) as [d|]; simpl.
  - apply deque_append_lastn, H.
  - rewrite app_nil_r. symmetry. apply lastn_all, H.
Qed.

Lemma detections_of_cons raw rest :
  detections_of (raw :: rest) = detections_of [raw] ++ detections_of rest.
Proof. unfold detections_of. simpl. destruct (best_detection raw); reflexivity. Qed.

(** The window is the last [maxlen] detections of everything that arrived. *)
Lemma webcam_loop_history (frames : list (list detection)) : forall s,
  (length (detection_history s) <= maxlen)%nat ->
  detection_history (webcam_loop s frames).1
  = lastn maxlen (detection_history s ++ detections_of frames).
Proof.
  induction frames as [|raw rest IH]; intros s Hs.
  - simpl. unfold detections_of. simpl. rewrite app_nil_r. symmetry. apply lastn_all, Hs.
  - rewrite webcam_loop_cons. simpl. rewrite IH.
    + rewrite process_frame_history, add_to_history_lastn by exact Hs.
      rewrite lastn_app_lastn, <- app_assoc, <- detections_of_cons. reflexivity.
    + rewrite process_frame_history, add_to_history_lastn by exact Hs.
      rewrite lastn_length. lia.
Qed.

Lemma detections_of_all (frames : list (list detection)) :
  Forall (fun raw => raw <> []) frames ->
  Forall2 (fun raw d => best_detection raw = Some d) frames (detections_of frames).
Proof.
  induction 1 as [|raw rest Hraw _ IH]; [constructor|].
  rewrite detections_of_cons. unfold detections_of at 1. simpl.
  destruct (best_detection raw) as [d|] eqn:Hd.
  - constructor; [exact Hd | exact IH].
  - apply best_detection_None in Hd. contradiction.
Qed.

(** C4. Whatever the frames, the window holds at most 5 entries; a detection
    is appended on the right, and a window that already holds 5 loses exactly
    its oldest entry; after any run of at least 5 frames that each carry a
    detection the window is the last 5 detections of the run, in arrival
    order. *)
Theorem C4_window_bounded_fifo :
  (forall frames : list (list detection),
     (0 <= length (detection_history (test_webcam frames).1) <= 5)%nat) /\
  (forall (s : loop_state) (raw : list detection) (d : detection),
     best_detection raw = Some d -> (length (detection_history s) < 5)%nat ->
     detection_history (process_frame s raw).1 = detection_history s ++ [d]) /\
  (forall (s : loop_state) (raw : list detection) (d oldest : detection)
          (rest : list detection),
     best_detection raw = Some d ->
     detection_history s = oldest :: rest -> length (detection_history s) = 5%nat ->
     detection_history (process_frame s raw).1 = rest ++ [d]) /\
  (forall before run : list (list detection),
     (5 <= length run)%nat -> Forall (fun raw => raw <> []) run ->
     Forall2 (fun raw d => best_detection raw = Some d) run (detections_of run) /\
     detection_history (test_webcam (before ++ run)).1 = lastn 5 (detections_of run) /\
     length (detection_history (test_webcam (before ++ run)).1) = 5%nat).
Proof.
  assert (Hinit : (length (detection_history init) <= maxlen)%nat) by (simpl; lia).
  split; [|split; [|split]].
  - intros frames. unfold test_webcam.
    rewrite webcam_loop_history, lastn_length by exact Hinit. unfold maxlen. lia.
  - intros s raw d Hd Hlen. rewrite process_frame_history, Hd. simpl.
    unfold deque_append, maxlen. rewrite length_app. simpl.
    destruct (Nat.ltb_spec 5 (length (detection_history s) + 1)); [lia | reflexivity].
  - intros s raw d oldest rest Hd Hh Hlen. rewrite process_frame_history, Hd. simpl.
    unfold deque_append, maxlen. rewrite length_app, Hlen, Hh. reflexivity.
  - intros before run Hlen Hall.
    pose proof (detections_of_all run Hall) as Hdet.
    pose proof (Forall2_length _ _ _ Hdet) as Hsame.
    assert (Hwin : detection_history (test_webcam (before ++ run)).1
                   = lastn 5 (detections_of run)).
    { unfold test_webcam. rewrite webcam_loop_history by exact Hinit. simpl.
      unfold detections_of at 1. rewrite omap_app. apply lastn_app_ge.
      fold (detections_of run). unfold maxlen. lia. }
    split; [exact Hdet|]. split; [exact Hwin|].
    rewrite Hwin, lastn_length. lia.
Qed.

(** Eight frames, the second without a detection: the window ends as the
    detections of frames 4 to 8. *)
Lemma C4_witness :
  let f (c : Q) : list detection := [("drowsy", c)] in
  let before := [f 0.1%Q; []] in
  let run := [f 0.2; f 0.3; f 0.4; f 0.5; f 0.6; f 0.7]%Q in
  detection_history (test_webcam (before ++ run)).1 = lastn 5 (detections_of run).
Proof.
  intros f before run.
  apply (proj2 (proj2 (proj2 C4_window_bounded_fifo)) before run).
  - simpl. lia.
  - repeat constructor; discriminate.
Defined.

End Window.

(* ===================================================================== *)
(** ** The reporting cadence *)
(* ===================================================================== *)

Section Cadence.
Import Stabilizer Props.

Lemma nonempty_length (h : list detection) : (1 <= length h)%nat <-> h <> [].
Proof. destruct h; simpl; split; intros; try congruence; lia. Qed.

Lemma empty_length (h : list detection) : length h = 0%nat <-> h = [].
Proof. destruct h; simpl; split; intros; congruence. Qed.

(** The three ways out of the [if / elif] of one frame. *)
Lemma process_frame_cases (s : loop_state) (raw : list detection) :
  let n := inference_count s + 1 in
  let h := add_to_history (detection_history s) (best_detection raw) in
  (state_report_due n h (last_reported_state s) /\
   process_frame s raw
   = (mkLoop n h (Some (current_state h)),
      Some (StateReport n (current_state h) (avg_conf h)
              (drowsy_count h) (notdrowsy_count h)))) \/
  (no_detection_report_due n h /\
   process_frame s raw = (mkLoop n h (last_reported_state s), Some (NoDetections n))) \/
  (~ state_report_due n h (last_reported_state s) /\ ~ no_detection_report_due n h /\
   process_frame s raw = (mkLoop n h (last_reported_state s), None)).
Proof.
  intros n h. unfold process_frame. fold n. fold h.
  unfold state_report_due, no_detection_report_due.
  destruct (decide (h = [])) as [Hh | Hh].
  - rewrite (bool_decide_eq_false_2 (1 <= length h)%nat)
      by (rewrite nonempty_length; tauto).
    rewrite (bool_decide_eq_true_2 (length h = 0%nat)) by (apply empty_length, Hh).
    simpl. destruct (Z.eqb_spec (n mod 30) 0) as [H30 | H30].
    + right. left. tauto.
    + right. right. tauto.
  - rewrite (bool_decide_eq_true_2 (1 <= length h)%nat) by (apply nonempty_length, Hh).
    rewrite (bool_decide_eq_false_2 (length h = 0%nat)) by (rewrite empty_length; tauto).
    simpl. destruct (Z.eqb_spec (n mod 5) 0) as [H5 | H5].
    + destruct (decide (Some (current_state h) = last_reported_state s)) as [Hsame | Hdiff].
      * rewrite (bool_decide_eq_false_2 (Some (current_state h) <> _)) by tauto.
        simpl. destruct (Z.eqb_spec (n mod 30) 0) as [H30 | H30].
        -- left. tauto.
        -- right. right. tauto.
      * rewrite (bool_decide_eq_true_2 (Some (current_state h) <> _)) by exact Hdiff.
        simpl. left. tauto.
    + right. right. tauto.
Qed.

(** C1. After a frame has updated the window to [h] and the counter to [n], a
    report is printed exactly when (a) [h] is not empty, [n] is a multiple of
    5 and the state computed from [h] differs from [last_reported_state] or
    [n] is a multiple of 30, and then [last_reported_state] becomes that
    state; or (b) [h] is empty and [n] is a multiple of 30, and then the
    report is the no-detection one and [last_reported_state] stays. *)
Theorem C1_report_cadence (s : loop_state) (raw : list detection) :
  let n := inference_count s + 1 in
  let h := add_to_history (detection_history s) (best_detection raw) in
  let s' := (process_frame s raw).1 in
  let r := (process_frame s raw).2 in
  inference_count s' = n /\ detection_history s' = h /\
  (state_report_due n h (last_reported_state s) ->
     r = Some (StateReport n (current_state h) (avg_conf h)
                 (drowsy_count h) (notdrowsy_count h)) /\
     last_reported_state s' = Some (current_state h)) /\
  (no_detection_report_due n h ->
     r = Some (NoDetections n) /\ last_reported_state s' = last_reported_state s) /\
  (is_Some r <->
     state_report_due n h (last_reported_state s) \/ no_detection_report_due n h).
Proof.
  intros n h s' r. subst s' r.
  assert (Hexcl : state_report_due n h (last_reported_state s) ->
                  no_detection_report_due n h -> False).
  { intros (Hne & _) (He & _). contradiction. }
  destruct (process_frame_cases s raw) as [(Ha & ->) | [(Hb & ->) | (Hna & Hnb & ->)]];
    fold n h in Ha || fold n h in Hb || fold n h in Hna, Hnb; fold n h; simpl.
  - repeat split; try tauto; eauto.
  - repeat split; try tauto; eauto.
  - repeat split; try tauto.
    intros [x Hx]. discriminate.
Qed.

(** Frame 30 of a run without any detection: the window is empty and 30 is a
    multiple of 30, so the no-detection report is printed and
    [last_reported_state] stays. *)
Lemma C1_witness :
  let s := (test_webcam (replicate 29 [])).1 in
  (process_frame s []).2 = Some (NoDetections (inference_count s + 1)) /\
  last_reported_state (process_frame s []).1 = last_reported_state s.
Proof.
  intros s.
  apply (proj1 (proj2 (proj2 (proj2 (C1_report_cadence s []))))).
  vm_compute. split; reflexivity.
Defined.

End Cadence.

(* ===================================================================== *)
(** ** The state computed from the window *)
(* ===================================================================== *)

Section Classifier.
Import Stabilizer Props.

Lemma fold_left_add_ones {A} (l : list A) (a : Z) :
  fold_left Z.add (map (fun _ => 1) l) a = a + Z.of_nat (length l).
Proof.
  revert a. induction l as [|x l IH]; intros a; simpl; [lia|].
  rewrite IH. lia.
Qed.

Lemma count_label_length (name : string) (w : list detection) :
  count_label name w = Z.of_nat (length (filter (fun d => class_name d = name) w)).
Proof. unfold count_label, py_sum_Z. rewrite fold_left_add_ones. lia. Qed.

Lemma count_label_other (name : string) (w1 w2 : list detection) (d : detection) :
  class_name d <> name -> count_label name (w1 ++ d :: w2) = count_label name (w1 ++ w2).
Proof.
  intros Hd. rewrite !count_label_length, !filter_app, filter_cons_False by exact Hd.
  reflexivity.
Qed.

Lemma fold_left_Qplus (l : list Q) (a : Q) :
  (fold_left Qplus l a == a + Qsum l)%Q.
Proof.
  revert a. induction l as [|x l IH]; intros a; simpl.
  - ring.
  - rewrite IH. ring.
Qed.

Lemma py_sum_Q_Qsum (l : list Q) : (py_sum_Q l == Qsum l)%Q.
Proof. unfold py_sum_Q. rewrite fold_left_Qplus. ring. Qed.

Lemma avg_conf_mean (w : list detection) :
  (avg_conf w == Qsum (map conf w) / inject_Z (Z.of_nat (length w)))%Q.
Proof. unfold avg_conf. rewrite py_sum_Q_Qsum. reflexivity. Qed.

(** C3. On a window that is not empty the state is DROWSY when the entries
    labelled 'drowsy' outnumber those labelled 'notdrowsy', ALERT in the
    reverse case and UNCERTAIN when the counts are equal; an entry with
    another label adds to neither count; the average is the sum of the
    confidences of all entries divided by their number; and the window
    [(drowsy,0.9),(drowsy,0.8),(notdrowsy,0.7),(drowsy,0.6),(notdrowsy,0.95)]
    gives counts 3 and 2, DROWSY and 0.79. *)
Theorem C3_majority_state_and_mean :
  (forall w : list detection, w <> [] ->
     drowsy_count w = Z.of_nat (length (filter (fun d => class_name d = "drowsy") w)) /\
     notdrowsy_count w
       = Z.of_nat (length (filter (fun d => class_name d = "notdrowsy") w)) /\
     (notdrowsy_count w < drowsy_count w -> current_state w = DROWSY) /\
     (drowsy_count w < notdrowsy_count w -> current_state w = ALERT) /\
     (drowsy_count w = notdrowsy_count w -> current_state w = UNCERTAIN) /\
     (avg_conf w * inject_Z (Z.of_nat (length w)) == Qsum (map conf w))%Q) /\
  (forall (w1 w2 : list detection) (d : detection),
     class_name d <> "drowsy" -> class_name d <> "notdrowsy" ->
     drowsy_count (w1 ++ d :: w2) = drowsy_count (w1 ++ w2) /\
     notdrowsy_count (w1 ++ d :: w2) = notdrowsy_count (w1 ++ w2) /\
     (avg_conf (w1 ++ d :: w2) * inject_Z (Z.of_nat (length (w1 ++ d :: w2)))
      == conf d + Qsum (map conf (w1 ++ w2)))%Q) /\
  (let w := [("drowsy", 0.9); ("drowsy", 0.8); ("notdrowsy", 0.7);
             ("drowsy", 0.6); ("notdrowsy", 0.95)]%Q in
   drowsy_count w = 3 /\ notdrowsy_count w = 2 /\ current_state w = DROWSY /\
   (avg_conf w == 0.79)%Q).
Proof.
  assert (Hmean : forall w : list detection, w <> [] ->
            (avg_conf w * inject_Z (Z.of_nat (length w)) == Qsum (map conf w))%Q).
  { intros w Hw. rewrite avg_conf_mean. field.
    destruct w; [congruence|]. simpl length.
    unfold Qeq. simpl. lia. }
  split; [|split].
  - intros w Hw.
    split; [apply count_label_length|]. split; [apply count_label_length|].
    unfold current_state. repeat split.
    + intros H. apply Z.ltb_lt in H. rewrite H. reflexivity.
    + intros H. destruct (Z.ltb_spec (notdrowsy_count w) (drowsy_count w)); [lia|].
      apply Z.ltb_lt in H. rewrite H. reflexivity.
    + intros H. rewrite H, Z.ltb_irrefl. reflexivity.
    + apply Hmean, Hw.
  - intros w1 w2 d Hd Hn. split; [apply count_label_other, Hd|].
    split; [apply count_label_other, Hn|].
    rewrite Hmean by (destruct w1; discriminate).
    rewrite !map_app. simpl. clear. induction w1 as [|x w1 IH]; simpl.
    + reflexivity.
    + rewrite IH. ring.
  - vm_compute. repeat split; reflexivity.
Qed.

(** The five-entry window in the general part: three 'drowsy' against two
    'notdrowsy' make it DROWSY. *)
Lemma C3_witness :
  let w := [("drowsy", 0.9); ("drowsy", 0.8); ("notdrowsy", 0.7);
            ("drowsy", 0.6); ("notdrowsy", 0.95)]%Q in
  current_state w = DROWSY.
Proof.
  intros w.
  destruct (proj1 C3_majority_state_and_mean w) as (_ & _ & Hd & _); [discriminate|].
  apply Hd. vm_compute. reflexivity.
Defined.

End Classifier.

(* ===================================================================== *)
(** ** Scenarios and the delay of a change *)
(* ===================================================================== *)

Section Scenarios.
Import Stabilizer Props.

(** C2, as stated, fails: the 30-frame stream does not print at frames 5,
    10, 15, 20 and 30. Frames 10 and 15 compute DROWSY again, which is the
    state last reported, and neither is a multiple of 30. *)
Lemma C2_counterexample :
  reports_of stream30
  <> [(5, Some DROWSY); (10, Some DROWSY); (15, Some DROWSY);
      (20, Some ALERT); (30, Some ALERT)].
Proof. vm_compute. discriminate. Qed.

(** C2, amended. The 30-frame stream (frames 1-15 one (drowsy, 0.9), frames
    16-30 one (notdrowsy, 0.9)) prints exactly at frames 5, 20 and 30: DROWSY
    at frame 5, ALERT at frames 20 and 30, each with average 0.9. *)
Theorem C2_thirty_frame_reports :
  reports_of stream30 = [(5, Some DROWSY); (20, Some ALERT); (30, Some ALERT)] /\
  Forall (report_avg_is 0.9%Q) (test_webcam stream30).2.
Proof.
  split.
  - vm_compute. reflexivity.
  - vm_compute. repeat constructor.
Qed.

Lemma process_frame_off_cadence (s : loop_state) (raw : list detection) :
  (inference_count s + 1) mod 5 <> 0 ->
  (process_frame s raw).2 = None /\
  last_reported_state (process_frame s raw).1 = last_reported_state s.
Proof.
  intros H5.
  destruct (process_frame_cases s raw) as [(Ha & ->) | [(Hb & ->) | (_ & _ & ->)]].
  - destruct Ha as (_ & H & _). contradiction.
  - destruct Hb as (_ & H30). exfalso. apply H5.
    apply Z.mod_divide in H30; [|lia]. apply Z.mod_divide; [lia|].
    destruct H30 as [q Hq]. exists (q * 6). lia.
  - split; reflexivity.
Qed.

Lemma webcam_loop_off_cadence (frames : list (list detection)) : forall s,
  (forall k, 1 <= k <= Z.of_nat (length frames) -> (inference_count s + k) mod 5 <> 0) ->
  (webcam_loop s frames).2 = [] /\
  last_reported_state (webcam_loop s frames).1 = last_reported_state s.
Proof.
  induction frames as [|raw rest IH]; intros s Hk; [split; reflexivity|].
  rewrite webcam_loop_cons. simpl fst. simpl snd.
  destruct (process_frame_off_cadence s raw) as [-> Hlast].
  { apply Hk. simpl length. lia. }
  destruct (IH (process_frame s raw).1) as [-> ->].
  { intros k Hrange. rewrite process_frame_count.
    replace (inference_count s + 1 + k) with (inference_count s + (1 + k)) by lia.
    apply Hk. simpl length. lia. }
  split; [reflexivity | exact Hlast].
Qed.

(** C6. A frame whose number is not a multiple of 5 prints nothing and leaves
    [last_reported_state] alone, whatever happened to the window, and so does
    any run of such frames; at a multiple of 5 a state that differs from the
    last reported one is printed. In the 15-frame stream whose majority flips
    from DROWSY to ALERT with frame 13, nothing is printed at frames 13 and
    14 and ALERT is printed at frame 15. *)
Theorem C6_change_reported_at_next_multiple_of_5 :
  (forall (s : loop_state) (raw : list detection),
     (inference_count s + 1) mod 5 <> 0 ->
     (process_frame s raw).2 = None /\
     last_reported_state (process_frame s raw).1 = last_reported_state s) /\
  (forall (s : loop_state) (frames : list (list detection)),
     (forall k, 1 <= k <= Z.of_nat (length frames) ->
                (inference_count s + k) mod 5 <> 0) ->
     (webcam_loop s frames).2 = [] /\
     last_reported_state (webcam_loop s frames).1 = last_reported_state s) /\
  (forall (s : loop_state) (raw : list detection),
     let n := inference_count s + 1 in
     let h := add_to_history (detection_history s) (best_detection raw) in
     n mod 5 = 0 -> h <> [] -> Some (current_state h) <> last_reported_state s ->
     (process_frame s raw).2
     = Some (StateReport n (current_state h) (avg_conf h)
               (drowsy_count h) (notdrowsy_count h))) /\
  (state_after (take 12 stream15) = DROWSY /\
   state_after (take 13 stream15) = ALERT /\
   reports_of (take 12 stream15) = [(5, Some DROWSY)] /\
   reports_of (take 13 stream15) = [(5, Some DROWSY)] /\
   reports_of (take 14 stream15) = [(5, Some DROWSY)] /\
   reports_of stream15 = [(5, Some DROWSY); (15, Some ALERT)]).
Proof.
  split; [exact process_frame_off_cadence|].
  split; [intros s frames; apply webcam_loop_off_cadence|].
  split.
  - intros s raw n h H5 Hh Hdiff.
    destruct (process_frame_cases s raw) as [(_ & ->) | [(Hb & _) | (Hna & _)]].
    + reflexivity.
    + destruct Hb as [Hb _]. contradiction.
    + exfalso. apply Hna. repeat split; [exact Hh | exact H5 | left; exact Hdiff].
  - vm_compute. repeat split; reflexivity.
Qed.

(** Frame 13 of the 15-frame stream, where the majority flips: nothing is
    printed and [last_reported_state] stays. *)
Lemma C6_witness :
  let s := (test_webcam (take 12 stream15)).1 in
  let raw := single "notdrowsy" 0.9%Q in
  (process_frame s raw).2 = None /\
  last_reported_state (process_frame s raw).1 = last_reported_state s.
Proof.
  intros s raw.
  apply (proj1 C6_change_reported_at_next_multiple_of_5 s raw).
  vm_compute. discriminate.
Defined.

End Scenarios.

(* ===================================================================== *)
(** ** Frames without a detection, and the window once filled *)
(* ===================================================================== *)

Section EmptyFrames.
Import Stabilizer Props.

Lemma deque_append_nonempty (dq : list detection) (d : detection) :
  deque_append dq d <> [].
Proof.
  unfold deque_append, maxlen. intros H. apply (f_equal length) in H. revert H.
  destruct (Nat.ltb_spec 5 (length (dq ++ [d]))) as [Hfull | Hroom];
    rewrite ?length_drop, length_app; simpl; rewrite length_app in *; simpl in *; lia.
Qed.

Lemma add_to_history_empty (h : list detection) (o : option detection) :
  add_to_history h o = [] -> h = [] /\ o = None.
Proof.
  destruct o as [d|]; simpl; [|tauto].
  intros H. destruct (deque_append_nonempty h d H).
Qed.

Lemma process_frame_empty_frame (s : loop_state) :
  detection_history (process_frame s []).1 = detection_history s /\
  inference_count (process_frame s []).1 = inference_count s + 1.
Proof. rewrite process_frame_history, process_frame_count. split; reflexivity. Qed.

(** C7, as stated, fails. After four frames with a detection, a fifth frame
    without one changes [last_reported_state] from [None] to DROWSY; frame 5
    is not a heartbeat frame (5 is not a multiple of 30) and what it prints is
    a state report, not the no-detection heartbeat. *)
Lemma C7_counterexample :
  let s := (test_webcam (replicate 4 (single "drowsy" 0.9%Q))).1 in
  best_detection [] = None /\
  last_reported_state s = None /\
  last_reported_state (process_frame s []).1 = Some DROWSY /\
  (inference_count (process_frame s []).1) mod 30 <> 0 /\
  report_summary <$> (process_frame s []).2 = Some (5, Some DROWSY).
Proof. vm_compute. repeat split; discriminate. Qed.

(** C7, amended. A frame without a detection leaves the window as it was and
    adds exactly one to the counter. It changes [last_reported_state] only
    when the window is not empty and the counter is a multiple of 5: the
    frame then prints a state report and [last_reported_state] becomes the
    state computed from the unchanged window. When the window is empty
    (the no-detection heartbeat included) or the counter is not a multiple of
    5, [last_reported_state] stays. *)
Theorem C7_empty_frame_effect (s : loop_state) :
  let n := inference_count s + 1 in
  let h := detection_history s in
  let s' := (process_frame s []).1 in
  let r := (process_frame s []).2 in
  detection_history s' = h /\
  inference_count s' = n /\
  (last_reported_state s' <> last_reported_state s ->
     h <> [] /\ n mod 5 = 0 /\
     last_reported_state s' = Some (current_state h) /\
     r = Some (StateReport n (current_state h) (avg_conf h)
                 (drowsy_count h) (notdrowsy_count h))) /\
  (h = [] \/ n mod 5 <> 0 -> last_reported_state s' = last_reported_state s) /\
  (forall m, r = Some (NoDetections m) -> last_reported_state s' = last_reported_state s).
Proof.
  intros n h s' r. subst s' r.
  destruct (process_frame_empty_frame s) as [Hh Hn].
  split; [exact Hh|]. split; [exact Hn|].
  destruct (process_frame_cases s []) as [(Ha & Heq) | [(Hb & Heq) | (_ & _ & Heq)]];
    rewrite Heq; simpl; fold n h.
  - destruct Ha as (Hne & H5 & _). simpl in Hne, H5. fold n h in Hne, H5.
    split; [intros _; auto|]. split.
    + intros [He | H5']; contradiction.
    + intros m Hm. discriminate.
  - split; [intros Hc; contradiction|]. split; reflexivity.
  - split; [intros Hc; contradiction|]. split; [reflexivity|]. intros m Hm. discriminate.
Qed.

(** The counterexample's state in the amended statement: the change at frame
    5 comes with a window that is not empty and a state report. *)
Lemma C7_witness :
  let s := (test_webcam (replicate 4 (single "drowsy" 0.9%Q))).1 in
  detection_history s <> [] /\ (inference_count s + 1) mod 5 = 0 /\
  last_reported_state (process_frame s []).1 = Some (current_state (detection_history s)) /\
  (process_frame s []).2
  = Some (StateReport (inference_count s + 1) (current_state (detection_history s))
            (avg_conf (detection_history s)) (drowsy_count (detection_history s))
            (notdrowsy_count (detection_history s))).
Proof.
  intros s.
  apply (proj1 (proj2 (proj2 (C7_empty_frame_effect s)))).
  vm_compute. discriminate.
Defined.

End EmptyFrames.

Section WindowNeverEmpties.
Import Stabilizer Props.

Lemma process_frame_keeps_nonempty (s : loop_state) (raw : list detection) :
  detection_history s <> [] \/ raw <> [] ->
  detection_history (process_frame s raw).1 <> [].
Proof.
  rewrite process_frame_history. intros Hor Hempty.
  apply add_to_history_empty in Hempty as [Hh Hbest].
  apply best_detection_None in Hbest. tauto.
Qed.

Lemma webcam_loop_keeps_nonempty (frames : list (list detection)) : forall s,
  detection_history s <> [] -> detection_history (webcam_loop s frames).1 <> [].
Proof.
  induction frames as [|raw rest IH]; intros s Hs; [exact Hs|].
  rewrite webcam_loop_cons. simpl. apply IH, process_frame_keeps_nonempty. tauto.
Qed.

(** A no-detection report at frame [n] means that the window was empty when
    the loop was entered and that every frame up to [n] came without a
    detection. *)
Lemma no_detections_origin (frames : list (list detection)) : forall s n,
  NoDetections n ∈ (webcam_loop s frames).2 ->
  detection_history s = [] /\
  exists k : nat, n = inference_count s + Z.of_nat k /\ (1 <= k <= length frames)%nat /\
    Forall (fun raw => best_detection raw = None) (take k frames).
Proof.
  induction frames as [|raw rest IH]; intros s n Hin.
  - simpl in Hin. apply elem_of_nil in Hin. contradiction.
  - rewrite webcam_loop_cons in Hin. simpl in Hin. apply elem_of_app in Hin.
    destruct Hin as [Hnow | Hlater].
    + destruct (process_frame_cases s raw) as [(_ & Heq) | [(Hb & Heq) | (_ & _ & Heq)]];
        rewrite Heq in Hnow; simpl in Hnow.
      * apply list_elem_of_singleton in Hnow. discriminate.
      * apply list_elem_of_singleton in Hnow. injection Hnow as ->.
        destruct Hb as [Hempty _]. apply add_to_history_empty in Hempty as [Hh Hbest].
        split; [exact Hh|]. exists 1%nat. split; [lia|]. split; [simpl; lia|].
        simpl. rewrite take_0. constructor; [exact Hbest | constructor].
      * apply elem_of_nil in Hnow. contradiction.
    + apply IH in Hlater as (Hh1 & k & Hn & Hk & Hall).
      rewrite process_frame_history in Hh1.
      apply add_to_history_empty in Hh1 as [Hh Hbest].
      split; [exact Hh|]. exists (S k). rewrite process_frame_count in Hn.
      split; [lia|]. split; [simpl; lia|]. simpl. constructor; assumption.
Qed.

Lemma gap_reports (gap : list (list detection)) : forall s,
  Forall (fun raw => raw = []) gap ->
  detection_history (webcam_loop s gap).1 = detection_history s /\
  Forall (report_reflects (detection_history s)) (webcam_loop s gap).2.
Proof.
  induction gap as [|raw rest IH]; intros s Hgap.
  - split; [reflexivity | constructor].
  - apply Forall_cons in Hgap as [-> Hrest]. rewrite webcam_loop_cons. simpl.
    destruct (process_frame_empty_frame s) as [Hh _].
    destruct (IH (process_frame s []).1 Hrest) as [Hwin Hreps]. rewrite Hh in Hwin, Hreps.
    split; [exact Hwin|]. apply Forall_app. split; [|exact Hreps].
    destruct (process_frame_cases s []) as [(_ & Heq) | [(Hb & Heq) | (_ & _ & Heq)]];
      rewrite Heq; simpl.
    + repeat constructor.
    + constructor; [|constructor]. destruct Hb as [Hb _]. exact Hb.
    + constructor.
Qed.

(** C9. A frame with a detection leaves the window non-empty, and a window
    that is not empty stays so for the rest of the run and the no-detection
    report is never printed again; hence a no-detection report at frame [n]
    means that none of the frames 1..n of the whole run carried a detection;
    and across a gap of frames without detections, however long, the window
    is untouched and every state report shows what is computed from those
    old entries. *)
Theorem C9_window_never_empties :
  (forall (s : loop_state) (raw : list detection),
     raw <> [] -> detection_history (process_frame s raw).1 <> []) /\
  (forall (s : loop_state) (frames : list (list detection)),
     detection_history s <> [] ->
     detection_history (webcam_loop s frames).1 <> [] /\
     Forall (fun r => ~ is_no_detections r) (webcam_loop s frames).2) /\
  (forall (frames : list (list detection)) (n : Z),
     NoDetections n ∈ (test_webcam frames).2 ->
     exists k : nat, n = Z.of_nat k /\ (1 <= k <= length frames)%nat /\
       Forall (fun raw => best_detection raw = None) (take k frames)) /\
  (forall (s : loop_state) (gap : list (list detection)),
     Forall (fun raw => raw = []) gap ->
     detection_history (webcam_loop s gap).1 = detection_history s /\
     Forall (report_reflects (detection_history s)) (webcam_loop s gap).2).
Proof.
  split; [|split; [|split]].
  - intros s raw Hraw. apply process_frame_keeps_nonempty. tauto.
  - intros s frames Hs. split; [apply webcam_loop_keeps_nonempty, Hs|].
    apply Forall_forall. intros [n st avg d a | n] Hin; simpl; [tauto|].
    intros _. apply no_detections_origin in Hin as [Hempty _]. contradiction.
  - intros frames n Hin. apply no_detections_origin in Hin as (_ & k & Hn & Hk & Hall).
    exists k. simpl in Hn. split; [lia|]. split; assumption.
  - intros s gap. apply gap_reports.
Qed.

(** Five detections, then a gap of 55 frames without any: the window is the
    same at frame 60 and what is printed there is computed from it. *)
Lemma C9_witness :
  let s := (test_webcam (replicate 5 (single "drowsy" 0.9%Q))).1 in
  detection_history (webcam_loop s (replicate 55 [])).1 = detection_history s /\
  Forall (report_reflects (detection_history s)) (webcam_loop s (replicate 55 [])).2.
Proof.
  intros s.
  apply (proj2 (proj2 (proj2 C9_window_never_empties)) s (replicate 55 [])).
  apply Forall_replicate. reflexivity.
Defined.

End WindowNeverEmpties.

(* ===================================================================== *)
(** ** Validation and exit code *)
(* ===================================================================== *)

Section ValidationProofs.
Import Validation.

Lemma Path_exists_true (p : path_facts) :
  Path_exists p = Return true <-> exists st_size, stat p = StatResult st_size.
Proof.
  unfold Path_exists. destruct (stat p) as [st_size | e |].
  - split; eauto.
  - destruct (ignore_error e); split; try discriminate; intros [? ?]; discriminate.
  - split; [discriminate | intros [? ?]; discriminate].
Qed.

Lemma Path_st_size_stat (p : path_facts) (st_size : Z) :
  Path_st_size p = Return st_size <-> stat p = StatResult st_size.
Proof.
  unfold Path_st_size. destruct (stat p); split; intros H; try discriminate H;
    injection H as ->; reflexivity.
Qed.

(** The result of [validate_model_path] by what stops it. *)
Lemma validate_model_path_cases (p : path_facts) :
  (Path_exists p = Raise /\ validate_model_path p = Raise) \/
  (Path_exists p = Return false /\
   validate_model_path p = Return (false, Some ERR_FILE_NOT_FOUND)) \/
  (exists st_size, stat p = StatResult st_size /\
     ((lower (path_suffix p) <> ".pt"%string /\
       validate_model_path p = Return (false, Some ERR_INVALID_EXTENSION)) \/
      (lower (path_suffix p) = ".pt"%string /\ st_size = 0 /\
       validate_model_path p = Return (false, Some ERR_FILE_EMPTY)) \/
      (lower (path_suffix p) = ".pt"%string /\ st_size <> 0 /\ access_R_OK p = false /\
       validate_model_path p = Return (false, Some ERR_READ_PERMISSION)) \/
      (lower (path_suffix p) = ".pt"%string /\ st_size <> 0 /\ access_R_OK p = true /\
       validate_model_path p = Return (true, None)))).
Proof.
  unfold validate_model_path, Path_exists, Path_st_size.
  destruct (stat p) as [st_size | e |]; simpl.
  - right. right. exists st_size. split; [reflexivity|].
    destruct (String.eqb_spec (lower (path_suffix p)) ".pt"); simpl; [|tauto].
    destruct (Z.eqb_spec st_size 0); [tauto|].
    destruct (access_R_OK p); simpl; tauto.
  - destruct (ignore_error e); tauto.
  - tauto.
Qed.

Lemma validate_model_path_ok (p : path_facts) :
  validate_model_path p = Return (true, None) <->
  Path_exists p = Return true /\ lower (path_suffix p) = ".pt"%string /\
  (exists st_size, Path_st_size p = Return st_size /\ st_size <> 0) /\
  access_R_OK p = true.
Proof.
  destruct (validate_model_path_cases p)
    as [(He & ->) | [(He & ->) | (st_size & Hst & Hcases)]].
  - rewrite He. split; [discriminate | intros [? _]; discriminate].
  - rewrite He. split; [discriminate | intros [? _]; discriminate].
  - assert (Hex : Path_exists p = Return true) by (apply Path_exists_true; eauto).
    assert (Hsz : Path_st_size p = Return st_size) by (apply Path_st_size_stat, Hst).
    rewrite Hex, Hsz.
    destruct Hcases as [(Hs & ->) | [(Hs & Hz & ->) | [(Hs & Hz & Ha & ->) | (Hs & Hz & Ha & ->)]]].
    + split; [discriminate | tauto].
    + split; [discriminate|]. intros (_ & _ & (n & [= <-] & Hn) & _). contradiction.
    + split; [discriminate|]. intros (_ & _ & _ & Hacc). congruence.
    + split; [|reflexivity]. intros _. repeat split; eauto.
Qed.




End ValidationProofs.

(* ===================================================================== *)
(** ** The Int8 "quantizer" only ever copies *)
(* ===================================================================== *)

Section OptimizerProofs.
Import Optimizer.

Lemma copy2_spec (env : environment) (fs fs' : file_system) (src dst : string) :
  copy2 env fs src dst = Some fs' ->
  exists content, fs !! src = Some content /\ src <> dst /\ fs' = <[dst := content]> fs.
Proof.
  unfold copy2. destruct (fs !! src) as [content|]; simpl; [|discriminate].
  destruct (String.eqb_spec src dst) as [Heq | Hne]; simpl; [discriminate|].
  destruct (can_write env dst); simpl; [|discriminate].
  intros [= <-]. exists content. auto.
Qed.

(** The fallback fails and leaves the files alone, or returns the Int8 path
    after writing there the very bytes of the float32 model. *)
Lemma quantize_from_tflite_copies (self : ModelOptimizer) (env : environment)
  (fs : file_system) :
  _quantize_from_tflite self env fs = (None, fs) \/
  exists content,
    fs !! tflite_path self = Some content /\
    tflite_path self <> int8_output_path env self /\
    _quantize_from_tflite self env fs
    = (Some (int8_output_path env self), <[int8_output_path env self := content]> fs).
Proof.
  unfold _quantize_from_tflite, quantize_from_tflite_body.
  destruct (import_tensorflow env); simpl; [|left; reflexivity].
  destruct (fs !! tflite_path self) as [content|] eqn:Hread; simpl; [|left; reflexivity].
  destruct (interpreter_ok env content); simpl; [|left; reflexivity].
  destruct (copy2 env fs (tflite_path self) (int8_output_path env self)) as [fs'|] eqn:Hcopy;
    simpl; [|left; reflexivity].
  apply copy2_spec in Hcopy as (content' & Hsrc & Hne & ->).
  right. exists content. rewrite Hread in Hsrc. injection Hsrc as <-. auto.
Qed.

(** C10. [quantize_int8] never writes a reduced-precision model. When the
    converter is built without an exception the function returns [None] and
    touches no file; otherwise it returns what the fallback returns, and the
    fallback either returns [None], touching no file, or returns a path whose
    file holds exactly the bytes of the input float32 model, every other
    file being as before. *)
Theorem C10_quantize_int8_only_copies (self : ModelOptimizer) (env : environment)
  (fs : file_system) :
  (forall dir, import_tensorflow env = true -> find_saved_model_dir env = Some dir ->
     from_saved_model env dir = true -> quantize_int8 self env fs = (None, fs)) /\
  (quantize_int8_body self env = None ->
     quantize_int8 self env fs = _quantize_from_tflite self env fs) /\
  (quantize_int8 self env fs = (None, fs) \/
   exists out content,
     (quantize_int8 self env fs).1 = Some out /\
     fs !! tflite_path self = Some content /\
     (quantize_int8 self env fs).2 !! out = Some content /\
     (quantize_int8 self env fs).2 !! tflite_path self = Some content /\
     forall p, p <> out -> (quantize_int8 self env fs).2 !! p = fs !! p).
Proof.
  split; [|split].
  - intros dir Himp Hdir Hconv. unfold quantize_int8, quantize_int8_body.
    rewrite Himp, Hdir. simpl. rewrite Hconv. reflexivity.
  - intros Hraise. unfold quantize_int8. rewrite Hraise. reflexivity.
  - unfold quantize_int8. destruct (quantize_int8_body self env); [left; reflexivity|].
    destruct (quantize_from_tflite_copies self env fs) as [-> | (content & Hin & Hne & ->)];
      [left; reflexivity|].
    right. exists (int8_output_path env self), content. simpl.
    split; [reflexivity|]. split; [exact Hin|].
    split; [apply lookup_insert_eq|].
    split; [rewrite lookup_insert_ne by congruence; exact Hin|].
    intros p Hp. apply lookup_insert_ne. congruence.
Qed.

(** No SavedModel directory next to the model, so the converter raises and
    the fallback runs: the file written as the Int8 model is the float32
    file, byte for byte. *)
Lemma C10_witness :
  let self := mkOptimizer "out/best_float32.tflite" "out" in
  let env := mkEnv true (Some None) (fun _ => false) (fun _ => true)
               (fun _ => "out/best_int8.tflite") (fun _ => true) in
  let fs : file_system := {[ "out/best_float32.tflite" := [Byte.x54; Byte.x46; Byte.x4c] ]} in
  quantize_int8 self env fs
  = (Some "out/best_int8.tflite",
     <[ "out/best_int8.tflite" := [Byte.x54; Byte.x46; Byte.x4c] ]> fs).
Proof.
  intros self env fs.
  rewrite (proj1 (proj2 (C10_quantize_int8_only_copies self env fs))) by reflexivity.
  reflexivity.
Defined.

End OptimizerProofs.

(* ===================================================================== *)
(** ** The loop as a whole: composition, frame numbers, heartbeat *)
(* ===================================================================== *)

Section LoopAsAWhole.
Import Stabilizer Props LoopProps.

Lemma mod30_mod5 (n : Z) : n mod 30 = 0 -> n mod 5 = 0.
Proof.
  intros H30. apply Z.mod_divide in H30; [|lia]. apply Z.mod_divide; [lia|].
  destruct H30 as [q Hq]. exists (q * 6). lia.
Qed.

(** What a frame prints carries the frame's own number, a multiple of 5. *)
Lemma process_frame_report_frame (s : loop_state) (raw : list detection) (r : report) :
  (process_frame s raw).2 = Some r ->
  report_frame r = inference_count s + 1 /\ report_frame r mod 5 = 0.
Proof.
  destruct (process_frame_cases s raw) as [(Ha & ->) | [(Hb & ->) | (_ & _ & ->)]];
    simpl; intros [= <-]; simpl.
  - destruct Ha as (_ & H5 & _). auto.
  - destruct Hb as (_ & H30). auto using mod30_mod5.
Qed.

Lemma webcam_loop_report_frames (frames : list (list detection)) : forall s,
  Forall (fun r => inference_count s < report_frame r
                   <= inference_count s + Z.of_nat (length frames)
                   /\ report_frame r mod 5 = 0) (webcam_loop s frames).2 /\
  StronglySorted Z.lt (map report_frame (webcam_loop s frames).2).
Proof.
  induction frames as [|raw rest IH]; intros s.
  - simpl. split; constructor.
  - rewrite webcam_loop_cons. simpl snd.
    destruct (IH (process_frame s raw).1) as [Hrange Hsorted].
    rewrite process_frame_count in Hrange.
    assert (Hrest : Forall (fun r => inference_count s + 1 < report_frame r
                              <= inference_count s + Z.of_nat (length (raw :: rest))
                              /\ report_frame r mod 5 = 0)
                      (webcam_loop (process_frame s raw).1 rest).2).
    { eapply Forall_impl; [exact Hrange|]. simpl. intros r ?. lia. }
    destruct (process_frame s raw).2 as [r|] eqn:Hr; simpl.
    + apply process_frame_report_frame in Hr as [Hn H5]. split.
      * constructor; [simpl length; lia|].
        eapply Forall_impl; [exact Hrest|]. simpl. intros ? ?. lia.
      * constructor; [exact Hsorted|]. apply Forall_fmap.
        eapply Forall_impl; [exact Hrest|]. simpl. intros ? ?. lia.
    + split; [|exact Hsorted].
      eapply Forall_impl; [exact Hrest|]. simpl. intros ? ?. lia.
Qed.

(** X2. After [test_webcam] has run over some frames, [inference_count] is
    their number; every report carries the number of a frame of the run that
    is a multiple of 5; and the reports come in strictly increasing frame
    order, so no frame prints twice. *)
Theorem X2_report_frames (frames : list (list detection)) :
  inference_count (test_webcam frames).1 = Z.of_nat (length frames) /\
  Forall (fun r => 1 <= report_frame r <= Z.of_nat (length frames)
                   /\ report_frame r mod 5 = 0) (test_webcam frames).2 /\
  StronglySorted Z.lt (map report_frame (test_webcam frames).2).
Proof.
  unfold test_webcam. split; [rewrite webcam_loop_count; reflexivity|].
  destruct (webcam_loop_report_frames frames init) as [Hrange Hsorted].
  split; [|exact Hsorted].
  eapply Forall_impl; [exact Hrange|]. simpl. intros r ?. lia.
Qed.

(** At a multiple of 30 the window decides which report is printed. *)
Lemma process_frame_heartbeat (s : loop_state) (raw : list detection) :
  let n := inference_count s + 1 in
  let h := add_to_history (detection_history s) (best_detection raw) in
  n mod 30 = 0 ->
  (h <> [] ->
   (process_frame s raw).2
   = Some (StateReport n (current_state h) (avg_conf h)
             (drowsy_count h) (notdrowsy_count h))) /\
  (h = [] -> (process_frame s raw).2 = Some (NoDetections n)).
Proof.
  intros n h H30.
  destruct (process_frame_cases s raw) as [(Ha & ->) | [(Hb & ->) | (Hna & Hnb & _)]];
    fold n h in Ha || fold n h in Hb || fold n h in Hna, Hnb; fold n h; simpl.
  - destruct Ha as (Hne & _). split; [reflexivity | intros He; contradiction].
  - destruct Hb as (He & _). split; [intros Hne; contradiction | reflexivity].
  - exfalso. unfold state_report_due, no_detection_report_due in *.
    pose proof (mod30_mod5 _ H30). destruct (decide (h = [])); tauto.
Qed.

Lemma webcam_loop_snoc (s : loop_state) (fs : list (list detection))
  (raw : list detection) :
  (webcam_loop s (fs ++ [raw])).1 = (process_frame (webcam_loop s fs).1 raw).1.
Proof. rewrite webcam_loop_app, webcam_loop_cons. reflexivity. Qed.

(** X3. The heartbeat: whatever the frames hold, each frame whose number is a
    multiple of 30 prints a report, and the window as it is after that frame
    decides which: the state report computed from it when it is not empty,
    the no-detection report when it is. *)
Theorem X3_heartbeat_every_30_frames (frames : list (list detection)) (k : Z) :
  1 <= k -> 30 * k <= Z.of_nat (length frames) ->
  let h := detection_history (test_webcam (take (Z.to_nat (30 * k)) frames)).1 in
  (h <> [] ->
   StateReport (30 * k) (current_state h) (avg_conf h) (drowsy_count h) (notdrowsy_count h)
   ∈ (test_webcam frames).2) /\
  (h = [] -> NoDetections (30 * k) ∈ (test_webcam frames).2).
Proof.
  intros Hk Hlen h. subst h.
  set (m := Z.to_nat (30 * k - 1)).
  destruct (lookup_lt_is_Some_2 frames m) as [raw Hraw]; [unfold m; lia|].
  set (s1 := (webcam_loop init (take m frames)).1).
  assert (Hcount : inference_count s1 + 1 = 30 * k).
  { unfold s1. rewrite webcam_loop_count, length_take. simpl. unfold m. lia. }
  assert (Hwin : detection_history (test_webcam (take (Z.to_nat (30 * k)) frames)).1
                 = add_to_history (detection_history s1) (best_detection raw)).
  { replace (Z.to_nat (30 * k)) with (S m) by (unfold m; lia).
    rewrite (take_S_r _ _ _ Hraw). unfold test_webcam.
    rewrite webcam_loop_snoc, process_frame_history. reflexivity. }
  assert (Hrun : (test_webcam frames).2
                 = (webcam_loop init (take m frames)).2
                   ++ option_list (process_frame s1 raw).2
                   ++ (webcam_loop (process_frame s1 raw).1 (drop (S m) frames)).2).
  { unfold test_webcam. rewrite <- (take_drop_middle frames m raw Hraw) at 1.
    rewrite webcam_loop_app, webcam_loop_cons. reflexivity. }
  destruct (process_frame_heartbeat s1 raw) as [Hstate Hnone].
  { rewrite Hcount. replace (30 * k) with (k * 30) by lia. apply Z.mod_mul. lia. }
  rewrite Hcount in Hstate, Hnone. rewrite Hwin, Hrun.
  split; intros Hh; apply elem_of_app; right; apply elem_of_app; left.
  - rewrite (Hstate Hh). apply list_elem_of_singleton. reflexivity.
  - rewrite (Hnone Hh). apply list_elem_of_singleton. reflexivity.
Qed.

(** 65 frames, detections only in the first three: frame 60 prints the state
    of those three. *)
Lemma X3_witness :
  let frames := replicate 3 (single "drowsy" 0.9%Q) ++ replicate 62 [] in
  let h := detection_history (test_webcam (take (Z.to_nat (30 * 2)) frames)).1 in
  (h <> [] ->
   StateReport (30 * 2) (current_state h) (avg_conf h) (drowsy_count h) (notdrowsy_count h)
   ∈ (test_webcam frames).2) /\
  (h = [] -> NoDetections (30 * 2) ∈ (test_webcam frames).2).
Proof.
  intros frames. apply X3_heartbeat_every_30_frames; [lia | vm_compute; discriminate].
Defined.

Lemma webcam_loop_report_chain (frames : list (list detection)) : forall s,
  report_chain (last_reported_state s) (webcam_loop s frames).2 /\
  last_reported_state (webcam_loop s frames).1
  = last_printed (last_reported_state s) (webcam_loop s frames).2.
Proof.
  induction frames as [|raw rest IH]; intros s; [split; [exact I | reflexivity]|].
  rewrite webcam_loop_cons. simpl fst. simpl snd.
  destruct (IH (process_frame s raw).1) as [Hchain Hlast]. rewrite Hlast.
  revert Hchain.
  destruct (process_frame_cases s raw) as [(Ha & ->) | [(_ & ->) | (_ & _ & ->)]];
    simpl; intros Hchain.
  - destruct Ha as (_ & _ & Hwhy). split; [split; [exact Hwhy | exact Hchain]|].
    reflexivity.
  - split; [exact Hchain | reflexivity].
  - split; [exact Hchain | reflexivity].
Qed.

(** X4. Change detection over a whole run: each state report shows a state
    other than the one printed just before it, or sits at a multiple of 30;
    and [last_reported_state] is always the state of the last state report
    printed ([None] before the first). *)
Theorem X4_no_repeat_between_heartbeats (frames : list (list detection)) :
  report_chain None (test_webcam frames).2 /\
  last_reported_state (test_webcam frames).1 = last_printed None (test_webcam frames).2.
Proof. exact (webcam_loop_report_chain frames init). Qed.

End LoopAsAWhole.

(* ===================================================================== *)
(** ** What the reports show *)
(* ===================================================================== *)

Section ReportContents.
Import Stabilizer Props LoopProps.

Lemma best_detection_elem (raw : list detection) (d : detection) :
  best_detection raw = Some d -> d ∈ raw.
Proof.
  intros Hd. destruct raw as [|x raw]; [discriminate|].
  destruct (best_detection_first_max (x :: raw)) as (i & d' & Hd' & Hi & _);
    [discriminate|].
  rewrite Hd in Hd'. injection Hd' as <-. eapply list_elem_of_lookup_2, Hi.
Qed.

Section WindowInvariant.
Variable Pd : detection -> Prop.

Lemma add_to_history_inv (h : list detection) (o : option detection) :
  (length h <= 5)%nat -> Forall Pd h -> (forall d, o = Some d -> Pd d) ->
  (length (add_to_history h o) <= 5)%nat /\ Forall Pd (add_to_history h o).
Proof.
  intros Hlen Hall Ho. destruct o as [d|]; simpl; [|auto].
  assert (Hd : Forall Pd (h ++ [d])).
  { apply Forall_app. split; [exact Hall|]. constructor; [auto | constructor]. }
  unfold deque_append, maxlen.
  destruct (Nat.ltb_spec 5 (length (h ++ [d]))) as [Hfull | Hroom].
  - split; [|apply Forall_drop, Hd].
    rewrite length_drop, length_app. simpl. lia.
  - split; [exact Hroom | exact Hd].
Qed.

(** Every report of a run is computed from a window of at most 5 entries,
    not empty for a state report, whose entries all satisfy what the raw
    detections of the frames satisfy. *)
Lemma webcam_loop_windows (frames : list (list detection)) : forall s,
  (length (detection_history s) <= 5)%nat -> Forall Pd (detection_history s) ->
  Forall (Forall Pd) frames ->
  Forall (fun r => exists h, report_reflects h r /\ (length h <= 5)%nat /\ Forall Pd h /\
                     (is_Some (report_state r) -> h <> []))
    (webcam_loop s frames).2.
Proof.
  induction frames as [|raw rest IH]; intros s Hlen Hall Hframes; [constructor|].
  apply Forall_cons in Hframes as [Hraw Hrest].
  rewrite webcam_loop_cons. simpl snd.
  destruct (add_to_history_inv (detection_history s) (best_detection raw) Hlen Hall)
    as [Hlen' Hall'].
  { intros d Hd. apply best_detection_elem in Hd.
    rewrite Forall_forall in Hraw. auto. }
  apply Forall_app. split.
  - destruct (process_frame_cases s raw) as [(Ha & ->) | [(Hb & ->) | (_ & _ & ->)]];
      simpl; [| |constructor].
    + constructor; [|constructor]. eexists. split; [simpl; eauto|].
      destruct Ha as (Hne & _). auto.
    + constructor; [|constructor]. destruct Hb as [Hempty _].
      exists []. split; [reflexivity|]. split; [simpl; lia|].
      split; [constructor|]. simpl. intros [? ?]. discriminate.
  - apply IH; [| |exact Hrest]; rewrite process_frame_history; assumption.
Qed.

End WindowInvariant.

Lemma two_filters_length {A} (P Q : A -> Prop) `{!forall x, Decision (P x)}
  `{!forall x, Decision (Q x)} (l : list A) :
  (forall x, P x -> Q x -> False) ->
  (length (filter P l) + length (filter Q l) <= length l)%nat.
Proof.
  intros Hdisj. induction l as [|x l IH]; [reflexivity|].
  rewrite !filter_cons. destruct (decide (P x)), (decide (Q x)); simpl; try lia.
  exfalso. eauto.
Qed.

Lemma counts_bounded (h : list detection) :
  0 <= drowsy_count h /\ 0 <= notdrowsy_count h /\
  drowsy_count h + notdrowsy_count h <= Z.of_nat (length h).
Proof.
  unfold drowsy_count, notdrowsy_count. rewrite !count_label_length.
  pose proof (two_filters_length (fun d : detection => class_name d = "drowsy")
                (fun d => class_name d = "notdrowsy") h) as Hsum.
  split; [lia|]. split; [lia|]. apply inj_le in Hsum; [|].
  - rewrite Nat2Z.inj_add in Hsum. exact Hsum.
  - intros x Hd Hn. rewrite Hd in Hn. discriminate.
Qed.

Lemma current_state_counts (h : list detection) :
  (current_state h = DROWSY <-> notdrowsy_count h < drowsy_count h) /\
  (current_state h = ALERT <-> drowsy_count h < notdrowsy_count h) /\
  (current_state h = UNCERTAIN <-> drowsy_count h = notdrowsy_count h).
Proof.
  unfold current_state.
  destruct (Z.ltb_spec (notdrowsy_count h) (drowsy_count h));
    [|destruct (Z.ltb_spec (drowsy_count h) (notdrowsy_count h))];
    repeat split; intros; try discriminate; try lia.
Qed.

(** X5. Every state report of a run is consistent: the two counts are not
    negative, together they are at most 5, and the state shown is DROWSY
    exactly when the drowsy count is the greater, ALERT exactly when the
    notdrowsy count is, and UNCERTAIN exactly when they are equal. *)
Theorem X5_reports_consistent (frames : list (list detection)) :
  Forall report_consistent (test_webcam frames).2.
Proof.
  unfold test_webcam.
  pose proof (webcam_loop_windows (fun _ => True) frames init) as Hwin.
  eapply Forall_impl; [apply Hwin|].
  - simpl. lia.
  - constructor.
  - apply Forall_forall. intros raw _. apply Forall_forall. auto.
  - intros [n st avg d a | n]; simpl; [|auto].
    intros (h & (-> & _ & -> & ->) & Hlen & _ & _).
    destruct (counts_bounded h) as (Hd & Ha & Hsum).
    destruct (current_state_counts h) as (H1 & H2 & H3).
    repeat split; try tauto; lia.
Qed.

Lemma window_length_pos (h : list detection) :
  h <> [] -> (0 < inject_Z (Z.of_nat (length h)))%Q.
Proof.
  intros Hne. destruct h; [congruence|]. unfold Qlt. simpl. lia.
Qed.

End ReportContents.

(* ===================================================================== *)
(** ** A stream of constant label *)
(* ===================================================================== *)

Section ConstantStream.
Import Stabilizer Props LoopProps.

Lemma count_label_all_same (name other : string) (h : list detection) :
  Forall (fun d => class_name d = name) h ->
  count_label other h = if decide (other = name) then Z.of_nat (length h) else 0.
Proof.
  intros Hall. rewrite count_label_length. induction Hall as [|d h Hd _ IH].
  - simpl. destruct (decide (other = name)); reflexivity.
  - rewrite filter_cons. destruct (decide (class_name d = other)) as [Heq | Hne].
    + simpl length. rewrite Nat2Z.inj_succ, IH.
      destruct (decide (other = name)); [lia | congruence].
    + rewrite IH. destruct (decide (other = name)); [congruence | reflexivity].
Qed.

Lemma current_state_all_same (name : string) (h : list detection) :
  h <> [] -> Forall (fun d => class_name d = name) h ->
  current_state h = state_of_label name.
Proof.
  intros Hne Hall. unfold current_state, drowsy_count, notdrowsy_count, state_of_label.
  rewrite !(count_label_all_same name _ h Hall).
  assert (0 < Z.of_nat (length h)) by (destruct h; [congruence | simpl; lia]).
  destruct (decide ("drowsy"%string = name)) as [<- | Hd].
  - rewrite decide_False by discriminate. rewrite decide_True by reflexivity.
    destruct (Z.ltb_spec 0 (Z.of_nat (length h))); [reflexivity | lia].
  - rewrite (decide_False (P := name = "drowsy"%string)) by congruence.
    destruct (decide ("notdrowsy"%string = name)) as [<- | Hn].
    + rewrite decide_True by reflexivity.
      destruct (Z.ltb_spec (Z.of_nat (length h)) 0); [lia|].
      destruct (Z.ltb_spec 0 (Z.of_nat (length h))); [reflexivity | lia].
    + rewrite (decide_False (P := name = "notdrowsy"%string)) by congruence.
      reflexivity.
Qed.

Lemma constant_stream_reports (name : string) (frames : list (list detection)) :
  forall s,
  0 <= inference_count s ->
  Forall (fun d => class_name d = name) (detection_history s) ->
  last_reported_state s
  = (if inference_count s <? 5 then None else Some (state_of_label name)) ->
  Forall (fun raw => exists d, best_detection raw = Some d /\ class_name d = name) frames ->
  map report_summary (webcam_loop s frames).2
  = map (fun n => (n, Some (state_of_label name)))
      (filter (fun k => k = 5 \/ k mod 30 = 0)
         (seqZ (inference_count s + 1) (Z.of_nat (length frames)))).
Proof.
  induction frames as [|raw rest IH]; intros s Hpos Hall Hlast Hframes.
  - reflexivity.
  - apply Forall_cons in Hframes as [(d & Hd & Hname) Hrest].
    rewrite webcam_loop_cons. simpl snd. rewrite map_app.
    simpl length. rewrite seqZ_cons by lia. rewrite filter_cons.
    replace (Z.pred (Z.of_nat (S (length rest)))) with (Z.of_nat (length rest)) by lia.
    set (n := inference_count s + 1) in *.
    set (h := add_to_history (detection_history s) (best_detection raw)).
    assert (Hh : h <> [] /\ Forall (fun d => class_name d = name) h).
    { unfold h. rewrite Hd. simpl. split; [apply deque_append_nonempty|].
      unfold deque_append. destruct (maxlen <? _)%nat;
        [apply Forall_drop|]; (apply Forall_app; split; [exact Hall|]);
        (constructor; [exact Hname | constructor]). }
    destruct Hh as [Hne Hlabels].
    pose proof (current_state_all_same name h Hne Hlabels) as Hst.
    assert (Hnext : forall s1, inference_count s1 = n -> detection_history s1 = h ->
              last_reported_state s1 = (if n <? 5 then None else Some (state_of_label name)) ->
              map report_summary (webcam_loop s1 rest).2
              = map (fun k => (k, Some (state_of_label name)))
                  (filter (fun k => k = 5 \/ k mod 30 = 0)
                     (seqZ (Z.succ n) (Z.of_nat (length rest))))).
    { intros s1 Hc Hw Hl. rewrite (IH s1); rewrite ?Hc, ?Hw; try assumption; [|lia].
      reflexivity. }
    destruct (process_frame_cases s raw) as [(Ha & Heq) | [(Hb & _) | (Hna & _ & Heq)]];
      fold n h in Ha || fold n h in Hb || fold n h in Hna.
    + rewrite Heq. simpl fst. simpl snd. fold n h. destruct Ha as (_ & H5 & Hwhy).
      assert (Hn5 : 5 <= n) by (unfold n in *; Z.div_mod_to_equations; lia).
      rewrite decide_True.
      * simpl. f_equal; [unfold report_summary; simpl; rewrite Hst; reflexivity|].
        apply Hnext; [reflexivity | reflexivity|]. simpl. rewrite Hst.
        destruct (Z.ltb_spec n 5); [lia | reflexivity].
      * destruct Hwhy as [Hdiff | H30]; [|right; exact H30]. left.
        rewrite Hlast, Hst in Hdiff.
        destruct (Z.ltb_spec (inference_count s) 5);
          [unfold n in *; lia | congruence].
    + destruct Hb as [Hb _]. contradiction.
    + rewrite Heq. simpl fst. simpl snd. fold n h.
      assert (Hskip : ~ (n = 5 \/ n mod 30 = 0)).
      { intros Hp. apply Hna. split; [exact Hne|]. destruct Hp as [Hn5 | H30].
        - split; [rewrite Hn5; reflexivity|]. left. rewrite Hlast, Hst.
          destruct (Z.ltb_spec (inference_count s) 5);
            [discriminate | unfold n in Hn5; lia].
        - split; [apply mod30_mod5, H30 | right; exact H30]. }
      rewrite decide_False by exact Hskip. simpl.
      apply Hnext; [reflexivity | reflexivity|]. simpl. rewrite Hlast.
      destruct (Z.ltb_spec (inference_count s) 5), (Z.ltb_spec n 5);
        try reflexivity; unfold n in *; lia.
Qed.

(** X7. A stream in which every frame's retained detection carries one and
    the same label prints at frame 5 and then only at the multiples of 30,
    each time the state of that label (DROWSY for 'drowsy', ALERT for
    'notdrowsy', UNCERTAIN for any other). *)
Theorem X7_constant_label_stream (name : string) (frames : list (list detection)) :
  Forall (fun raw => exists d, best_detection raw = Some d /\ class_name d = name) frames ->
  map report_summary (test_webcam frames).2
  = map (fun n => (n, Some (state_of_label name)))
      (constant_stream_frames (length frames)).
Proof.
  intros Hframes. unfold test_webcam, constant_stream_frames.
  apply (constant_stream_reports name frames init); [simpl; lia | constructor | reflexivity|].
  exact Hframes.
Qed.

(** 61 frames with one 'notdrowsy' detection each: ALERT at frames 5, 30
    and 60. *)
Lemma X7_witness :
  map report_summary (test_webcam (replicate 61 (single "notdrowsy" 0.7%Q))).2
  = [(5, Some ALERT); (30, Some ALERT); (60, Some ALERT)].
Proof.
  rewrite (X7_constant_label_stream "notdrowsy").
  - vm_compute. reflexivity.
  - apply Forall_replicate. exists ("notdrowsy"%string, 0.7%Q). split; reflexivity.
Defined.

End ConstantStream.

(* ===================================================================== *)
(** ** The TFLite detector and the loop it feeds *)
(* ===================================================================== *)

Section Detector.
Import Stabilizer Props LoopProps TFLite.

(** The scan of [np.argmax] resumed with the best so far: it keeps it when
    nothing later is greater, and otherwise ends on the first maximum of the
    rest, which is greater. *)
Lemma argmax_from_spec (l : list Q) : forall best_i best i,
  (argmax_from best_i best i l = best_i /\
   forall j x, l !! j = Some x -> (x <= best)%Q) \/
  (exists j c, argmax_from best_i best i l = (i + j)%nat /\
     first_max_score l j c /\ (best < c)%Q).
Proof.
  induction l as [|x rest IH]; intros best_i best i; simpl.
  - left. split; [reflexivity|]. intros j y Hy. rewrite lookup_nil in Hy. discriminate.
  - destruct (Qgtb x best) eqn:Hcmp.
    + apply Qgtb_true in Hcmp. right.
      destruct (IH i x (S i)) as [[-> Hall] | (j & c & -> & (Hj & Hbefore & Hafter) & Hlt)].
      * exists 0%nat, x. split; [lia|]. split; [|exact Hcmp].
        split; [reflexivity|]. split; [intros; lia|].
        intros [|j] y Hlt Hy; [lia|]. simpl in Hy. eauto.
      * exists (S j), c. split; [lia|]. split; [|lra].
        split; [exact Hj|]. split.
        -- intros [|k] y Hk Hy; simpl in Hy; [injection Hy as <-; exact Hlt|].
           apply (Hbefore k); [lia | exact Hy].
        -- intros [|k] y Hk Hy; [lia|]. simpl in Hy. apply (Hafter k); [lia | exact Hy].
    + apply Qgtb_false in Hcmp.
      destruct (IH best_i best (S i))
        as [[-> Hall] | (j & c & -> & (Hj & Hbefore & Hafter) & Hlt)].
      * left. split; [reflexivity|].
        intros [|j] y Hy; simpl in Hy; [injection Hy as <-; exact Hcmp | eauto].
      * right. exists (S j), c. split; [lia|]. split; [|exact Hlt].
        split; [exact Hj|]. split.
        -- intros [|k] y Hk Hy; simpl in Hy; [injection Hy as <-; lra|].
           apply (Hbefore k); [lia | exact Hy].
        -- intros [|k] y Hk Hy; [lia|]. simpl in Hy. apply (Hafter k); [lia | exact Hy].
Qed.

Lemma argmax_first_max (scores : list Q) :
  scores <> [] -> exists i c, argmax scores = Some i /\ first_max_score scores i c.
Proof.
  destruct scores as [|x rest]; [congruence|]. intros _. simpl.
  destruct (argmax_from_spec rest 0 x 1)
    as [[-> Hall] | (j & c & -> & (Hj & Hbefore & Hafter) & Hlt)].
  - exists 0%nat, x. split; [reflexivity|]. split; [reflexivity|].
    split; [intros; lia|]. intros [|j] y Hlt Hy; [lia|]. simpl in Hy. eauto.
  - exists (S j), c. split; [reflexivity|]. split; [exact Hj|]. split.
    + intros [|k] y Hk Hy; simpl in Hy; [injection Hy as <-; exact Hlt|].
      apply (Hbefore k); [lia | exact Hy].
    + intros [|k] y Hk Hy; [lia|]. simpl in Hy. apply (Hafter k); [lia | exact Hy].
Qed.

Lemma class_name_of_spec (class_id : nat) :
  name_for_class class_id (class_name_of class_id).
Proof.
  unfold name_for_class, class_name_of.
  destruct class_id as [|[|k]]; simpl; [tauto | tauto|].
  right. right. split; [lia | reflexivity].
Qed.

Lemma detect_row_spec (pred : list Q) (det : tflite_detection) :
  det ∈ detect_row pred -> detection_from_row pred det.
Proof.
  unfold detect_row. destruct (Nat.leb_spec 6 (length pred)) as [Hlen | Hlen];
    [|intros H; apply elem_of_nil in H; contradiction].
  destruct (argmax_first_max (drop 4 pred)) as (i & c & -> & Hfm).
  { intros Hnil. apply (f_equal length) in Hnil. rewrite length_drop in Hnil.
    simpl in Hnil. lia. }
  destruct Hfm as (Hi & Hrest). rewrite Hi.
  destruct (Qgtb c 0.25) eqn:Hthr; [|intros H; apply elem_of_nil in H; contradiction].
  intros Hin. apply list_elem_of_singleton in Hin. subst det.
  apply Qgtb_true in Hthr. split; [exact Hlen|].
  destruct pred as [|x [|y [|w [|h rest]]]]; simpl in Hlen; try lia.
  exists i, x, y, w, h. simpl.
  split; [split; assumption|]. split; [exact Hthr|].
  split; [apply class_name_of_spec|]. split; reflexivity.
Qed.

Lemma detect_row_at_most_one (pred : list Q) : (length (detect_row pred) <= 1)%nat.
Proof. unfold detect_row. repeat case_match; simpl; lia. Qed.

Lemma concat_rows_length (preds : list (list Q)) :
  (length (concat (map detect_row preds)) <= length preds)%nat.
Proof.
  induction preds as [|pred preds IH]; simpl; [lia|].
  rewrite length_app. pose proof (detect_row_at_most_one pred). lia.
Qed.

Lemma concat_rows_elem (preds : list (list Q)) (det : tflite_detection) :
  det ∈ concat (map detect_row preds) -> exists pred, pred ∈ preds /\ det ∈ detect_row pred.
Proof.
  induction preds as [|pred preds IH]; simpl.
  - intros H. apply elem_of_nil in H. contradiction.
  - intros H. apply elem_of_app in H as [H | H].
    + exists pred. split; [left | exact H].
    + destruct (IH H) as (p & Hp & Hd). exists p. split; [right; exact Hp | exact Hd].
Qed.

(** X8. What [detect] returns from a 3-D output: it raises only when the
    first axis is empty; each detection stands for a row of the first batch
    with at least 6 entries, its confidence being the first maximum of the
    row's class scores and above 0.25, its name 'drowsy' when that maximum
    is at class 0, 'notdrowsy' when at class 1 and 'class_k' when at a class
    k >= 2, its box the row's first four entries; and there are at most as
    many detections as rows. *)
Theorem X8_detect_rows (data : list (list (list Q))) :
  (detect (Array3 data) = None <-> data = []) /\
  (forall dets, detect (Array3 data) = Some dets ->
     exists predictions, data !! 0%nat = Some predictions /\
       (length dets <= length predictions)%nat /\
       forall det, det ∈ dets ->
         exists pred, pred ∈ predictions /\ detection_from_row pred det).
Proof.
  split.
  - destruct data as [|predictions data]; simpl; split; congruence.
  - intros dets Hdets. destruct data as [|predictions data]; [discriminate|].
    simpl in Hdets. injection Hdets as <-. exists predictions.
    split; [reflexivity|]. split; [apply concat_rows_length|].
    intros det Hdet. apply concat_rows_elem in Hdet as (pred & Hpred & Hdet).
    apply detect_row_spec in Hdet. eauto.
Qed.

(** Three rows: class 0 and class 1 tied in the first, class 2 highest in
    the second, the third below the threshold. Two detections, 'drowsy' and
    'class_2'. *)
Lemma X8_witness :
  let data := [[[0.5; 0.5; 0.2; 0.2; 0.6; 0.6; 0.1];
                [0.4; 0.4; 0.1; 0.1; 0.2; 0.3; 0.7];
                [0.5; 0.5; 0.2; 0.2; 0.1; 0.2; 0.1]]]%Q in
  let dets := [("drowsy"%string, 0.6%Q, Some (0.5, 0.5, 0.2, 0.2)%Q);
               ("class_2"%string, 0.7%Q, Some (0.4, 0.4, 0.1, 0.1)%Q)] in
  exists predictions, data !! 0%nat = Some predictions /\
    (length dets <= length predictions)%nat /\
    forall det, det ∈ dets ->
      exists pred, pred ∈ predictions /\ detection_from_row pred det.
Proof.
  intros data dets. apply (proj2 (X8_detect_rows data)). reflexivity.
Defined.

(** X9. Rows with fewer than 6 entries are skipped whatever their scores: a
    3-D output whose rows are all that short, such as the 4 + 1 columns of a
    one-class model, gives no detection, and the loop sees an empty frame. *)
Theorem X9_short_rows_give_nothing (predictions : list (list Q))
  (rest : list (list (list Q))) :
  Forall (fun pred => (length pred < 6)%nat) predictions ->
  detect (Array3 (predictions :: rest)) = Some [] /\
  tflite_frames [Array3 (predictions :: rest)] = Some [[]].
Proof.
  intros Hshort.
  assert (Hnone : concat (map detect_row predictions) = []).
  { induction Hshort as [|pred preds Hlen _ IH]; [reflexivity|]. simpl. rewrite IH.
    unfold detect_row. destruct (Nat.leb_spec 6 (length pred)); [lia | reflexivity]. }
  unfold tflite_frames. simpl. rewrite Hnone. split; reflexivity.
Qed.

(** A one-class output with a score of 0.99 in its only class column. *)
Lemma X9_witness :
  detect (Array3 [[[0.5; 0.5; 0.2; 0.2; 0.99]%Q]]) = Some [].
Proof.
  apply (X9_short_rows_give_nothing [[0.5; 0.5; 0.2; 0.2; 0.99]%Q] []).
  repeat constructor.
Defined.

End Detector.

Section DetectorLoop.
Import Stabilizer Props LoopProps TFLite.

Lemma webcam_loop_window_inv (Pd : detection -> Prop) (frames : list (list detection)) :
  forall s,
  (length (detection_history s) <= 5)%nat -> Forall Pd (detection_history s) ->
  Forall (Forall Pd) frames ->
  (length (detection_history (webcam_loop s frames).1) <= 5)%nat /\
  Forall Pd (detection_history (webcam_loop s frames).1).
Proof.
  induction frames as [|raw rest IH]; intros s Hlen Hall Hframes; [auto|].
  apply Forall_cons in Hframes as [Hraw Hrest]. rewrite webcam_loop_cons. simpl fst.
  destruct (add_to_history_inv Pd (detection_history s) (best_detection raw) Hlen Hall)
    as [Hlen' Hall'].
  { intros d Hd. apply best_detection_elem in Hd. rewrite Forall_forall in Hraw. auto. }
  apply IH; [| |exact Hrest]; rewrite process_frame_history; assumption.
Qed.

Lemma Qsum_above (lo : Q) (l : list Q) :
  Forall (fun c => (lo < c)%Q) l ->
  (lo * inject_Z (Z.of_nat (length l)) <= Qsum l)%Q /\
  (l <> [] -> (lo * inject_Z (Z.of_nat (length l)) < Qsum l)%Q).
Proof.
  induction 1 as [|c l Hc _ [IHle _]].
  - simpl. change (inject_Z (Z.of_nat 0)) with 0%Q. split; [lra | congruence].
  - simpl length. rewrite Nat2Z.inj_succ. unfold Z.succ. rewrite inject_Z_plus.
    simpl Qsum. change (inject_Z 1) with 1%Q. split; [lra | intros _; lra].
Qed.

Lemma avg_conf_above (lo : Q) (h : list detection) :
  h <> [] -> Forall (fun d => (lo < conf d)%Q) h -> (lo < avg_conf h)%Q.
Proof.
  intros Hne Hall. rewrite avg_conf_mean.
  destruct (Qsum_above lo (map conf h)) as [_ Hlt].
  { apply Forall_fmap. exact Hall. }
  rewrite length_map in Hlt. apply Qlt_shift_div_l; [apply window_length_pos, Hne|].
  apply Hlt. destruct h; [congruence | discriminate].
Qed.

Lemma detect_above_threshold (output_data : ndarray) (dets : list tflite_detection) :
  detect output_data = Some dets -> Forall (fun det => (0.25 < conf (unpack det))%Q) dets.
Proof.
  destruct output_data as [data | data |]; simpl.
  - destruct (data !! 0%nat) as [predictions|]; simpl; [|discriminate].
    intros [= <-]. apply Forall_forall. intros det Hdet.
    apply concat_rows_elem in Hdet as (pred & _ & Hdet).
    apply detect_row_spec in Hdet as (_ & i & x & y & w & h & _ & Hthr & _).
    exact Hthr.
  - destruct (data !! 0%nat) as [scores|]; simpl; [|discriminate].
    destruct (argmax scores) as [class_id|]; simpl; [|discriminate].
    destruct (scores !! class_id) as [confidence|]; simpl; [|discriminate].
    destruct (Qgtb confidence 0.25) eqn:Hthr; intros [= <-]; [|constructor].
    apply Qgtb_true in Hthr. constructor; [exact Hthr | constructor].
  - intros [= <-]. constructor.
Qed.

Lemma tflite_frames_above_threshold (outputs : list ndarray)
  (frames : list (list detection)) :
  tflite_frames outputs = Some frames ->
  Forall (Forall (fun d => (0.25 < conf d)%Q)) frames.
Proof.
  unfold tflite_frames. intros Hframes. apply mapM_Some_1 in Hframes.
  induction Hframes as [|output_data raw outputs frames Hraw _ IH]; constructor; [|exact IH].
  destruct (detect output_data) as [dets|] eqn:Hdets; simpl in Hraw; [|discriminate].
  injection Hraw as <-. apply Forall_fmap. apply (detect_above_threshold _ _ Hdets).
Qed.

(** X10. In the TFLite loop nothing at or below the threshold reaches the
    statistics: when [detect] has parsed every output tensor, each entry of
    the window has a confidence above 0.25 and every state report shows an
    average above 0.25. *)
Theorem X10_tflite_loop_above_threshold (outputs : list ndarray)
  (frames : list (list detection)) :
  tflite_frames outputs = Some frames ->
  Forall (fun d => (0.25 < conf d)%Q) (detection_history (test_webcam frames).1) /\
  Forall (report_avg_above 0.25) (test_webcam frames).2.
Proof.
  intros Hframes. apply tflite_frames_above_threshold in Hframes. unfold test_webcam.
  split.
  - apply (webcam_loop_window_inv (fun d => (0.25 < conf d)%Q) frames init);
      [simpl; lia | constructor | exact Hframes].
  - pose proof (webcam_loop_windows (fun d => (0.25 < conf d)%Q) frames init) as Hwin.
    eapply Forall_impl; [apply Hwin; [simpl; lia | constructor | exact Hframes]|].
    intros [n st avg d a | n]; simpl; [|auto].
    intros (h & (_ & -> & _) & _ & Hall & Hne).
    apply avg_conf_above; [apply Hne; eauto | exact Hall].
Qed.

(** Five outputs of two rows each, one row above and one below the
    threshold: the report of frame 5 averages the five confidences 0.6. *)
Lemma X10_witness :
  let out := Array3 [[[0.5; 0.5; 0.2; 0.2; 0.6; 0.3]; [0.5; 0.5; 0.2; 0.2; 0.1; 0.2]]]%Q in
  let frames := replicate 5 [("drowsy"%string, 0.6%Q)] in
  Forall (fun d => (0.25 < conf d)%Q) (detection_history (test_webcam frames).1) /\
  Forall (report_avg_above 0.25) (test_webcam frames).2.
Proof.
  intros out frames.
  apply (X10_tflite_loop_above_threshold (replicate 5 out) frames). reflexivity.
Defined.

End DetectorLoop.

(* ===================================================================== *)
(** ** Validation: what an error code tells, and the exit codes *)
(* ===================================================================== *)

Section ValidationMore.
Import Validation.

Lemma validate_model_path_flag (p : path_facts) (is_valid : bool)
  (error_code : option string) :
  validate_model_path p = Return (is_valid, error_code) ->
  (is_valid = true <-> error_code = None).
Proof.
  destruct (validate_model_path_cases p)
    as [(_ & ->) | [(_ & ->) | (st_size & _ & Hcases)]]; [discriminate| |].
  - intros [= <- <-]. split; discriminate.
  - destruct Hcases
      as [(_ & ->) | [(_ & _ & ->) | [(_ & _ & _ & ->) | (_ & _ & _ & ->)]]];
      intros [= <- <-]; split; try discriminate; reflexivity.
Qed.

Lemma validate_model_path_code (p : path_facts) (code : string) :
  (exists is_valid, validate_model_path p = Return (is_valid, Some code)) <->
  validate_model_path p = Return (false, Some code).
Proof.
  split; [|eauto]. intros [is_valid Hv].
  destruct is_valid; [|exact Hv].
  apply validate_model_path_flag in Hv. destruct Hv as [Hv _].
  specialize (Hv eq_refl). discriminate.
Qed.

(** Closes one direction of an equivalence between an answer and the facts
    that lead to it, when the case at hand settles both. *)
Ltac settle_answer :=
  intros;
  repeat match goal with
         | H : _ /\ _ |- _ => destruct H
         | H : exists _, _ |- _ => destruct H
         end;
  first [ discriminate | congruence | reflexivity
        | repeat apply conj; first [assumption | congruence | eauto] ].

(** X11. The answer of [validate_model_path] tells which check failed: the
    flag is [True] exactly when the code is [None], and each of the four
    codes is returned exactly when its check is the first to fail. *)
Theorem X11_error_code_names_first_failed_check (p : path_facts) :
  (forall is_valid error_code,
     validate_model_path p = Return (is_valid, error_code) ->
     (is_valid = true <-> error_code = None)) /\
  ((exists is_valid, validate_model_path p = Return (is_valid, Some ERR_FILE_NOT_FOUND))
   <-> Path_exists p = Return false) /\
  ((exists is_valid, validate_model_path p = Return (is_valid, Some ERR_INVALID_EXTENSION))
   <-> Path_exists p = Return true /\ lower (path_suffix p) <> ".pt"%string) /\
  ((exists is_valid, validate_model_path p = Return (is_valid, Some ERR_FILE_EMPTY))
   <-> Path_exists p = Return true /\ lower (path_suffix p) = ".pt"%string /\
       Path_st_size p = Return 0) /\
  ((exists is_valid, validate_model_path p = Return (is_valid, Some ERR_READ_PERMISSION))
   <-> Path_exists p = Return true /\ lower (path_suffix p) = ".pt"%string /\
       (exists st_size, Path_st_size p = Return st_size /\ st_size <> 0) /\
       access_R_OK p = false).
Proof.
  split; [exact (validate_model_path_flag p)|].
  rewrite !validate_model_path_code.
  destruct (validate_model_path_cases p)
    as [(He & ->) | [(He & ->) | (st_size & Hst & Hcases)]].
  - rewrite He. repeat apply conj; settle_answer.
  - rewrite He. repeat apply conj; settle_answer.
  - assert (Hex : Path_exists p = Return true) by (apply Path_exists_true; eauto).
    assert (Hsz : Path_st_size p = Return st_size) by (apply Path_st_size_stat, Hst).
    rewrite Hex, Hsz.
    destruct Hcases
      as [(Hs & ->) | [(Hs & Hz & ->) | [(Hs & Hz & Ha & ->) | (Hs & Hz & Ha & ->)]]];
      repeat apply conj; settle_answer.
Qed.

Lemma ascii_lower_dot (c : ascii) : ascii_lower c = "."%char -> c = "."%char.
Proof.
  destruct c as [[] [] [] [] [] [] [] []]; vm_compute; intros H;
    solve [discriminate H | reflexivity].
Qed.

Lemma ascii_lower_p (c : ascii) : ascii_lower c = "p"%char -> c = "p"%char \/ c = "P"%char.
Proof.
  destruct c as [[] [] [] [] [] [] [] []]; vm_compute; intros H;
    solve [discriminate H | left; reflexivity | right; reflexivity].
Qed.

Lemma ascii_lower_t (c : ascii) : ascii_lower c = "t"%char -> c = "t"%char \/ c = "T"%char.
Proof.
  destruct c as [[] [] [] [] [] [] [] []]; vm_compute; intros H;
    solve [discriminate H | left; reflexivity | right; reflexivity].
Qed.

Lemma lower_pt (s : string) :
  lower s = ".pt"%string <-> s ∈ [".pt"; ".Pt"; ".pT"; ".PT"]%string.
Proof.
  split.
  - destruct s as [|c1 [|c2 [|c3 [|c4 s]]]]; simpl; try discriminate.
    intros [= H1 H2 H3].
    apply ascii_lower_dot in H1 as ->.
    apply ascii_lower_p in H2 as [-> | ->]; apply ascii_lower_t in H3 as [-> | ->].
    + apply elem_of_cons. left. reflexivity.
    + do 2 (apply elem_of_cons; right). apply elem_of_cons. left. reflexivity.
    + apply elem_of_cons; right. apply elem_of_cons. left. reflexivity.
    + do 3 (apply elem_of_cons; right). apply elem_of_cons. left. reflexivity.
  - intros Hin. repeat (apply elem_of_cons in Hin as [-> | Hin]; [reflexivity|]).
    apply elem_of_nil in Hin. contradiction.
Qed.

(** X12. The check of the extension ignores case and nothing else: a model
    is accepted exactly when the file exists, its suffix is one of '.pt',
    '.Pt', '.pT', '.PT', it is not empty and it can be read. *)
Theorem X12_accepted_suffixes (p : path_facts) :
  validate_model_path p = Return (true, None) <->
  Path_exists p = Return true /\
  path_suffix p ∈ [".pt"; ".Pt"; ".pT"; ".PT"]%string /\
  (exists st_size, Path_st_size p = Return st_size /\ st_size <> 0) /\
  access_R_OK p = true.
Proof. rewrite validate_model_path_ok, lower_pt. reflexivity. Qed.


End ValidationMore.

(* ===================================================================== *)
(** ** Removing intermediate files *)
(* ===================================================================== *)

Section CleanupProofs.
Import Cleanup.

Lemma unlink_fold (env : dir_env) (files : list string) : forall acc : gset string * Z,
  NoDup files -> (forall f, f ∈ files -> f ∈ acc.1) ->
  (forall name, name ∈ (fold_left (unlink_step env) files acc).1 <->
     name ∈ acc.1 /\ ~ (name ∈ files /\ can_unlink env name = true)) /\
  (fold_left (unlink_step env) files acc).2
    + Z.of_nat (size (fold_left (unlink_step env) files acc).1)
  = acc.2 + Z.of_nat (size acc.1).
Proof.
  induction files as [|f files IH]; intros acc Hnodup Hin; simpl.
  - split; [|reflexivity]. intros name. rewrite elem_of_nil. tauto.
  - apply NoDup_cons in Hnodup as [Hfresh Hnodup].
    assert (Hf : f ∈ acc.1) by (apply Hin; left).
    destruct (IH (unlink_step env acc f) Hnodup) as [Hmem Hcount].
    { intros g Hg. unfold unlink_step. destruct (can_unlink env f); simpl.
      - apply elem_of_difference. split; [apply Hin; right; exact Hg|].
        rewrite elem_of_singleton. intros ->. contradiction.
      - apply Hin. right. exact Hg. }
    split.
    + intros name. rewrite Hmem. unfold unlink_step.
      destruct (can_unlink env f) eqn:Hunlink; simpl.
      * rewrite elem_of_difference, elem_of_singleton, elem_of_cons.
        split.
        -- intros [[Hn Hne] Hno]. split; [exact Hn|]. intros [[-> | Hfiles] Hcan]; tauto.
        -- intros [Hn Hno]. split; [split; [exact Hn|]|].
           ++ intros ->. apply Hno. auto.
           ++ intros [Hfiles Hcan]. apply Hno. auto.
      * rewrite elem_of_cons. split.
        -- intros [Hn Hno]. split; [exact Hn|]. intros [[-> | Hfiles] Hcan];
             [congruence | tauto].
        -- intros [Hn Hno]. split; [exact Hn|]. intros [Hfiles Hcan]. apply Hno. auto.
    + rewrite Hcount. unfold unlink_step. destruct (can_unlink env f); simpl; [|reflexivity].
      assert (Hsize : size acc.1 = S (size (acc.1 ∖ {[f]}))).
      { rewrite (union_difference_singleton_L f acc.1 Hf) at 1.
        rewrite size_union, size_singleton; [reflexivity|].
        apply elem_of_disjoint. intros x Hx1 Hx2.
        apply elem_of_difference in Hx2 as [_ Hx2]. contradiction. }
      rewrite Hsize. lia.
Qed.

Lemma cleanup_fold (env : dir_env) (extensions : list string) :
  forall acc : gset string * Z,
  let result :=
    fold_left (fun acc ext => fold_left (unlink_step env) (glob env acc.1 ext) acc)
      extensions acc in
  (forall name, name ∈ result.1 <->
     name ∈ acc.1 /\
     ~ (Exists (fun ext => glob_match env ext name = true) extensions /\
        can_unlink env name = true)) /\
  result.2 + Z.of_nat (size result.1) = acc.2 + Z.of_nat (size acc.1).
Proof.
  induction extensions as [|ext exts IH]; intros acc; simpl.
  - split; [|reflexivity]. intros name. rewrite Exists_nil. tauto.
  - destruct (unlink_fold env (glob env acc.1 ext) acc) as [Hmem Hcount].
    { apply NoDup_elements. }
    { intros f Hf. unfold glob in Hf. apply elem_of_elements, elem_of_filter in Hf. tauto. }
    destruct (IH (fold_left (unlink_step env) (glob env acc.1 ext) acc)) as [Hmem' Hcount'].
    split; [|rewrite Hcount', Hcount; reflexivity].
    intros name. rewrite Hmem', Hmem, Exists_cons. unfold glob.
    rewrite elem_of_elements, elem_of_filter. tauto.
Qed.

(** X14. [cleanup_intermediate_files] removes exactly the files of the
    directory that match one of the extensions and that [unlink] can remove;
    every other file stays; and the number it returns is the number of files
    that are gone, also when extensions repeat or overlap. *)
Theorem X14_cleanup_removes_and_counts (env : dir_env) (directory : gset string)
  (extensions : list string) :
  let result := cleanup_intermediate_files env directory extensions in
  (forall name, name ∈ result.1 <->
     name ∈ directory /\
     ~ (Exists (fun ext => glob_match env ext name = true) extensions /\
        can_unlink env name = true)) /\
  result.1 ⊆ directory /\
  result.2 = Z.of_nat (size directory) - Z.of_nat (size result.1).
Proof.
  intros result. subst result. unfold cleanup_intermediate_files.
  destruct (cleanup_fold env extensions (directory, 0)) as [Hmem Hcount].
  simpl in Hmem, Hcount. split; [exact Hmem|]. split.
  - intros name Hname. apply Hmem in Hname. tauto.
  - lia.
Qed.

End CleanupProofs.

(* ===================================================================== *)
(** ** More on the loop: cadence points, full windows, order of detections *)
(* ===================================================================== *)

Section LoopMore.
Import Stabilizer Props LoopProps.

(** X15. At a cadence point nothing is pending: after a frame whose number
    is a multiple of 5, if the window is not empty, [last_reported_state] is
    the state of the window as it then is. *)
Theorem X15_in_sync_at_multiples_of_5 (frames : list (list detection)) :
  Z.of_nat (length frames) mod 5 = 0 ->
  detection_history (test_webcam frames).1 <> [] ->
  last_reported_state (test_webcam frames).1
  = Some (current_state (detection_history (test_webcam frames).1)).
Proof.
  unfold test_webcam. destruct frames as [|raw0 rest0] using rev_ind;
    [intros _ Hne; contradiction|].
  clear IHrest0. rename rest0 into before. rename raw0 into raw.
  rewrite webcam_loop_snoc, length_app. simpl length. intros H5 Hne.
  set (s1 := (webcam_loop init before).1) in *.
  assert (Hn : inference_count s1 + 1 = Z.of_nat (length before + 1)).
  { unfold s1. rewrite webcam_loop_count. simpl. lia. }
  rewrite process_frame_history in Hne. revert Hne.
  destruct (process_frame_cases s1 raw) as [(_ & ->) | [(Hb & _) | (Hna & _ & ->)]];
    simpl; intros Hne.
  - reflexivity.
  - destruct Hb as [Hb _]. contradiction.
  - destruct (decide (Some (current_state (add_to_history (detection_history s1)
                                              (best_detection raw)))
                      = last_reported_state s1)) as [Hsame | Hdiff]; [congruence|].
    exfalso. apply Hna. split; [exact Hne|]. rewrite Hn. split; [exact H5 | left; exact Hdiff].
Qed.

(** Ten frames, the last five 'notdrowsy': ALERT is the state last
    reported. *)
Lemma X15_witness :
  last_reported_state (test_webcam (take 10 (drop 5 stream30 ++ stream30))).1
  = Some (current_state
            (detection_history (test_webcam (take 10 (drop 5 stream30 ++ stream30))).1)).
Proof.
  apply X15_in_sync_at_multiples_of_5; vm_compute; [reflexivity | discriminate].
Defined.

Lemma two_filters_cover {A} (P Q : A -> Prop) `{!forall x, Decision (P x)}
  `{!forall x, Decision (Q x)} (l : list A) :
  (forall x, P x -> Q x -> False) -> Forall (fun x => P x \/ Q x) l ->
  (length (filter P l) + length (filter Q l) = length l)%nat.
Proof.
  intros Hdisj. induction 1 as [|x l Hx _ IH]; [reflexivity|].
  rewrite !filter_cons. destruct (decide (P x)), (decide (Q x)); simpl; try lia.
  - exfalso. eauto.
  - tauto.
Qed.

(** X16. With only the labels 'drowsy' and 'notdrowsy' in the window, the
    two counts add up to its size, so a window of odd size, the full window
    of 5 in particular, is never UNCERTAIN. *)
Theorem X16_odd_window_is_decided (h : list detection) :
  Forall (fun d => class_name d = "drowsy"%string \/ class_name d = "notdrowsy"%string) h ->
  drowsy_count h + notdrowsy_count h = Z.of_nat (length h) /\
  (Nat.Odd (length h) -> current_state h <> UNCERTAIN) /\
  (length h = 5%nat -> current_state h <> UNCERTAIN).
Proof.
  intros Hknown.
  assert (Hsum : drowsy_count h + notdrowsy_count h = Z.of_nat (length h)).
  { unfold drowsy_count, notdrowsy_count. rewrite !count_label_length.
    rewrite <- (two_filters_cover (fun d : detection => class_name d = "drowsy"%string)
                  (fun d => class_name d = "notdrowsy"%string) h); [lia| |exact Hknown].
    intros x Hd Hn. rewrite Hd in Hn. discriminate. }
  assert (Hodd : Nat.Odd (length h) -> current_state h <> UNCERTAIN).
  { intros [m Hm] Hunc. apply (proj2 (proj2 (current_state_counts h))) in Hunc. lia. }
  split; [exact Hsum|]. split; [exact Hodd|].
  intros Hlen. apply Hodd. exists 2%nat. lia.
Qed.

(** Three against two. *)
Lemma X16_witness :
  current_state [("drowsy", 0.9); ("notdrowsy", 0.8); ("notdrowsy", 0.7);
                 ("drowsy", 0.6); ("notdrowsy", 0.95)]%Q <> UNCERTAIN.
Proof.
  refine (proj2 (proj2 (X16_odd_window_is_decided _ _)) _); [|reflexivity].
  repeat (constructor; [simpl; auto|]). constructor.
Defined.

Lemma best_detection_max (raw : list detection) (d : detection) :
  best_detection raw = Some d ->
  d ∈ raw /\ forall e, e ∈ raw -> (conf e <= conf d)%Q.
Proof.
  intros Hd. split; [apply best_detection_elem, Hd|].
  destruct raw as [|x raw]; [discriminate|].
  destruct (best_detection_first_max (x :: raw)) as (i & d' & Hd' & Hi & Hbefore & Hafter);
    [discriminate|].
  rewrite Hd in Hd'. injection Hd' as <-.
  intros e He. apply list_elem_of_lookup_1 in He as [j Hj].
  destruct (Nat.lt_trichotomy j i) as [Hlt | [-> | Hgt]].
  - apply Qlt_le_weak. eauto.
  - rewrite Hi in Hj. injection Hj as <-. apply Qle_refl.
  - eauto.
Qed.

(** X17. The order in which the model lists the detections of a frame does
    not change the confidence that is kept: for two orderings of the same
    detections the scan keeps a detection in both or in neither, and the kept
    confidences are equal (on a tie the label may differ). *)
Theorem X17_kept_confidence_ignores_order (raw raw' : list detection) :
  raw ≡ₚ raw' ->
  (best_detection raw = None <-> best_detection raw' = None) /\
  (forall d d', best_detection raw = Some d -> best_detection raw' = Some d' ->
     (conf d == conf d')%Q).
Proof.
  intros Hperm. split.
  - rewrite !best_detection_None. split; intros ->.
    + apply Permutation_nil_l in Hperm. congruence.
    + symmetry in Hperm. apply Permutation_nil_l in Hperm. congruence.
  - intros d d' Hd Hd'.
    apply best_detection_max in Hd as [Hin Hmax].
    apply best_detection_max in Hd' as [Hin' Hmax'].
    apply Qle_antisym.
    + apply Hmax'. rewrite <- Hperm. exact Hin.
    + apply Hmax. rewrite Hperm. exact Hin'.
Qed.

(** Two detections tied at 0.8, in both orders. *)
Lemma X17_witness :
  let raw := [("drowsy", 0.8); ("notdrowsy", 0.8)]%Q in
  let raw' := [("notdrowsy", 0.8); ("drowsy", 0.8)]%Q in
  (best_detection raw = None <-> best_detection raw' = None) /\
  (forall d d', best_detection raw = Some d -> best_detection raw' = Some d' ->
     (conf d == conf d')%Q).
Proof.
  intros raw raw'. apply X17_kept_confidence_ignores_order. apply perm_swap.
Defined.

End LoopMore.
